(** * CPE Innovation Framework: the orchestration contract, verified

    A shallow embedding of [src/main.py] (class [CPEInnovationFramework]) and
    of [config/settings.py] (class [Settings]), with the properties that the
    specification states about them.

    Python objects are modelled by value: an [Agent], a [Task] and a [Crew]
    are the records of the keyword arguments their constructors receive.
    The language-model client, the clock and the crew's [kickoff] are
    collaborators outside the repository: the client is the record of its
    constructor arguments, the clock is an oracle read through
    [datetime_now], and [kickoff] is a parameter of the development. *)

From Stdlib Require Import String Ascii ZArith QArith List DecimalString.
From stdpp Require Import base option list strings gmap.

Local Open Scope string_scope.
Local Open Scope list_scope.

(** ** The Python runtime the program relies on *)

Module Py.

(** *** Exceptions

    The classes that matter to the program, with the one fact the
    [except Exception] clause depends on: which classes derive from
    [Exception] and which derive from [BaseException] only. *)

Inductive exn_class : Type :=
| KeyError
| ValueError
| AttributeError
| OtherException (name : string)
| KeyboardInterrupt
| SystemExit
| GeneratorExit
| OtherBaseException (name : string).

(** An exception object: its class and the text [str(e)] yields. *)
Record exn : Type := Exn { exn_cls : exn_class; exn_str : string }.

Definition subclass_of_Exception (c : exn_class) : bool :=
  match c with
  | KeyError | ValueError | AttributeError | OtherException _ => true
  | KeyboardInterrupt | SystemExit | GeneratorExit | OtherBaseException _ => false
  end.

Definition isinstance_Exception (e : exn) : bool :=
  subclass_of_Exception (exn_cls e).

(** [repr] of a string key that holds no quote, backslash or control
    character, which is the case of every key the program looks up. *)
Definition repr (s : string) : string := "'" ++ s ++ "'".

(** *** Values of type [Any]

    The values a payload can hold: the scalars, and any other object,
    told apart by its identity. *)

Inductive Any : Type :=
| PyNone
| PyBool (b : bool)
| PyInt (z : Z)
| PyStr (s : string)
| PyObject (id : nat).

(** *** Dictionaries with string keys

    A Python [dict] keeps its keys in insertion order and holds each key
    once: assigning to a key that is present replaces the value where
    it stands, assigning to a new key appends it. *)

Definition dict (V : Type) : Type := list (string * V).

Fixpoint dict_get {V} (k : string) (d : dict V) : option V :=
  match d with
  | [] => None
  | (k', v) :: d' => if decide (k = k') then Some v else dict_get k d'
  end.

Fixpoint dict_set {V} (k : string) (v : V) (d : dict V) : dict V :=
  match d with
  | [] => [(k, v)]
  | (k', v') :: d' =>
      if decide (k = k') then (k, v) :: d' else (k', v') :: dict_set k v d'
  end.

Definition keys {V} (d : dict V) : list string := d.*1.
Definition values {V} (d : dict V) : list V := d.*2.
Definition len {V} (d : dict V) : nat := length d.


(** *** [datetime]

    A naive [datetime] and the two renderings the program uses:
    [isoformat()] and [str()], which is [isoformat(sep=' ')].  Both print
    the microseconds only when they are not zero. *)

Record datetime : Type := Datetime {
  year : nat; month : nat; day : nat;
  hour : nat; minute : nat; second : nat; microsecond : nat
}.

Definition digits (n : nat) : string :=
  NilEmpty.string_of_uint (Nat.to_uint n).

Fixpoint zeros (n : nat) : string :=
  match n with O => "" | S n' => "0" ++ zeros n' end.

(** ["%0<width>d"] *)
Definition zfill (width n : nat) : string :=
  zeros (width - String.length (digits n)) ++ digits n.

Definition isoformat_sep (sep : string) (t : datetime) : string :=
  zfill 4 (year t) ++ "-" ++ zfill 2 (month t) ++ "-" ++ zfill 2 (day t)
  ++ sep
  ++ zfill 2 (hour t) ++ ":" ++ zfill 2 (minute t) ++ ":" ++ zfill 2 (second t)
  ++ (if Nat.eqb (microsecond t) 0 then "" else "." ++ zfill 6 (microsecond t)).

Definition isoformat (t : datetime) : string := isoformat_sep "T" t.
Definition datetime_str (t : datetime) : string := isoformat_sep " " t.

(** *** The process environment, [os.environ] after [load_dotenv()] *)

Definition getenv (environ : gmap string string) (name : string) : option string :=
  environ !! name.

Definition getenv_default (environ : gmap string string) (name default : string) : string :=
  match environ !! name with Some v => v | None => default end.

End Py.

(** ** The objects of the program *)

Import Py.

(** [ChatOpenAI(model=..., temperature=..., openai_api_key=...)] *)
Record ChatOpenAI : Type := {
  model : string;
  temperature : Q;
  openai_api_key : option string
}.

(** [Agent(role=..., goal=..., backstory=..., verbose=..., allow_delegation=..., llm=...)] *)
Record Agent : Type := {
  role : string;
  goal : string;
  backstory : string;
  verbose : bool;
  allow_delegation : bool;
  agent_llm : ChatOpenAI
}.

(** [Task(description=..., expected_output=..., agent=...)] *)
Record Task : Type := {
  description : string;
  expected_output : string;
  agent : Agent
}.

Inductive Process : Type := sequential | hierarchical.

(** [Crew(agents=..., tasks=..., process=..., verbose=...)] *)
Record Crew : Type := {
  crew_agents : list Agent;
  crew_tasks : list Task;
  process : Process;
  crew_verbose : Z
}.

(** The attributes of a [CPEInnovationFramework] instance. *)
Record CPEInnovationFramework : Type := {
  llm : ChatOpenAI;
  crew : option Crew;
  agents : dict Agent;
  tasks : dict Task
}.

(** What lies outside the instance: the clock ([clock w n] is what the
    [n]-th call of [datetime.now()] returns), the standard output (one entry
    per [print]), and the calls made to [Crew.kickoff], oldest first. *)
Record World : Type := {
  clock : nat -> datetime;
  reads : nat;
  stdout : list string;
  kickoffs : list (Crew * dict Any)
}.

(** ** Methods as state transformers that may raise *)

Inductive result (A : Type) : Type :=
| Return (a : A)
| Raise (e : exn).
Arguments Return {A} a.
Arguments Raise {A} e.

(** A method body runs on the instance and the world; whether it returns or
    raises, the mutations made so far stay. *)
Definition M (A : Type) : Type :=
  CPEInnovationFramework -> World -> result A * CPEInnovationFramework * World.

Definition ret {A} (a : A) : M A := fun self w => (Return a, self, w).

Definition bind {A B} (m : M A) (k : A -> M B) : M B :=
  fun self w =>
    match m self w with
    | (Return a, self', w') => k a self' w'
    | (Raise e, self', w') => (Raise e, self', w')
    end.

Notation "x <- m ;; k" := (bind m (fun x => k))
  (at level 100, m at next level, right associativity).
Notation "m ;; k" := (bind m (fun _ => k))
  (at level 100, right associativity).

(** [try: body except Exception as e: handler(e)]: an exception whose class
    does not derive from [Exception] is not caught. *)
Definition try_except_Exception {A} (body : M A) (handler : exn -> M A) : M A :=
  fun self w =>
    match body self w with
    | (Return a, self', w') => (Return a, self', w')
    | (Raise e, self', w') =>
        if isinstance_Exception e then handler e self' w'
        else (Raise e, self', w')
    end.

(** Reading and assigning the attributes of [self]. *)
Definition self_llm : M ChatOpenAI := fun self w => (Return (llm self), self, w).
Definition self_crew : M (option Crew) := fun self w => (Return (crew self), self, w).
Definition self_agents : M (dict Agent) := fun self w => (Return (agents self), self, w).
Definition self_tasks : M (dict Task) := fun self w => (Return (tasks self), self, w).

Definition set_self_crew (c : Crew) : M unit :=
  fun self w =>
    (Return tt,
     {| llm := llm self; crew := Some c; agents := agents self; tasks := tasks self |},
     w).

(** [self.agents[k] = a] *)
Definition self_agents_setitem (k : string) (a : Agent) : M unit :=
  fun self w =>
    (Return tt,
     {| llm := llm self; crew := crew self;
        agents := dict_set k a (agents self); tasks := tasks self |},
     w).

(** [self.agents[k]], which raises [KeyError(k)] when [k] is missing *)
Definition self_agents_getitem (k : string) : M Agent :=
  fun self w =>
    match dict_get k (agents self) with
    | Some a => (Return a, self, w)
    | None => (Raise (Exn KeyError (repr k)), self, w)
    end.

(** [self.tasks[k] = t] *)
Definition self_tasks_setitem (k : string) (t : Task) : M unit :=
  fun self w =>
    (Return tt,
     {| llm := llm self; crew := crew self;
        agents := agents self; tasks := dict_set k t (tasks self) |},
     w).

(** [datetime.now()] *)
Definition datetime_now : M datetime :=
  fun self w =>
    (Return (clock w (reads w)), self,
     {| clock := clock w; reads := S (reads w);
        stdout := stdout w; kickoffs := kickoffs w |}).

(** [print(s)] *)
Definition print (s : string) : M unit :=
  fun self w =>
    (Return tt, self,
     {| clock := clock w; reads := reads w;
        stdout := stdout w ++ [s]; kickoffs := kickoffs w |}).

(** ** [CPEInnovationFramework] *)

(** [__init__]: the client is built from the environment, the registries
    start empty and there is no crew. *)
Definition __init__ (environ : gmap string string) : CPEInnovationFramework :=
  {| llm := {| model := "gpt-4";
               temperature := 3 # 10;
               openai_api_key := getenv environ "OPENAI_API_KEY" |};
     crew := None;
     agents := [];
     tasks := [] |}.

(** [setup_agents] assigns five entries of [self.agents]; each right-hand side
    reads [self.llm] before the entry is stored. *)

Definition def_network_optimizer : M unit :=
  llm_ <- self_llm ;;
  self_agents_setitem "network_optimizer"
    {| role := "Network Optimization Specialist";
       goal := "Deliver optimized network configurations with 99%+ compliance rates, automated troubleshooting workflows, and performance improvements measurable within 24 hours of deployment";
       backstory := "You are a seasoned network engineer with deep expertise across 
            Cisco, Juniper, Arista, and open-source networking stacks. You specialize in 
            CPE middleware integration and cross-platform automation using Netmiko and NAPALM. 
            Your focus is on creating vendor-agnostic solutions that work seamlessly across 
            different hardware platforms.";
       verbose := true;
       allow_delegation := false;
       agent_llm := llm_ |}.

Definition def_maintenance_engineer : M unit :=
  llm_ <- self_llm ;;
  self_agents_setitem "maintenance_engineer"
    {| role := "Predictive Maintenance Engineer";
       goal := "Achieve 85%+ accuracy in failure prediction with optimized recall rates, generate actionable maintenance schedules, and minimize unplanned downtime through early anomaly detection";
       backstory := "You are an industrial IoT expert with experience in time-series 
            analysis, sensor data processing, and implementing ANAI-powered predictive 
            workflows across diverse hardware ecosystems. You excel at turning raw sensor 
            data into actionable maintenance insights that prevent equipment failures.";
       verbose := true;
       allow_delegation := false;
       agent_llm := llm_ |}.

Definition def_deployment_orchestrator : M unit :=
  llm_ <- self_llm ;;
  self_agents_setitem "deployment_orchestrator"
    {| role := "Service Deployment Orchestrator";
       goal := "Execute zero-downtime deployments with comprehensive monitoring, automated rollback capabilities, and detailed performance tracking for both containerized and native CPE applications";
       backstory := "You are a DevOps architect specializing in CPE environments, 
            with expertise in Kubernetes, Docker, and native middleware deployment patterns 
            across prplOS and RDK-B platforms. You ensure reliable, scalable service 
            deployments with minimal disruption to existing operations.";
       verbose := true;
       allow_delegation := false;
       agent_llm := llm_ |}.

Definition def_knowledge_curator : M unit :=
  llm_ <- self_llm ;;
  self_agents_setitem "knowledge_curator"
    {| role := "Knowledge Curation Manager";
       goal := "Maintain a high-quality, searchable repository of proven solutions with 90%+ community satisfaction ratings, automated quality scoring, and efficient skill module distribution";
       backstory := "You are an open-source community manager with technical validation 
            expertise, experienced in implementing peer-review workflows, automated testing 
            pipelines, and community-driven quality assurance processes. You ensure that 
            shared knowledge meets high standards and remains accessible to the community.";
       verbose := true;
       allow_delegation := false;
       agent_llm := llm_ |}.

Definition def_ecosystem_coordinator : M unit :=
  llm_ <- self_llm ;;
  self_agents_setitem "ecosystem_coordinator"
    {| role := "Ecosystem Coordination Director";
       goal := "Optimize cross-agent collaboration efficiency, maintain system-wide performance metrics above 95% availability, and facilitate sustainable community growth through intelligent task distribution and quality control";
       backstory := "You are a distributed systems architect with extensive experience 
            in multi-agent orchestration, community platform scaling, and enterprise-grade 
            reliability engineering for middleware environments. You oversee the entire 
            ecosystem to ensure smooth operation and continuous improvement.";
       verbose := true;
       allow_delegation := true;
       agent_llm := llm_ |}.

(** [setup_agents]: the five assignments, in the order of the source. *)
Definition setup_agents : M unit :=
  def_network_optimizer ;;
  def_maintenance_engineer ;;
  def_deployment_orchestrator ;;
  def_knowledge_curator ;;
  def_ecosystem_coordinator.

(** [setup_tasks] assigns five entries of [self.tasks]; each right-hand side
    looks its agent up in [self.agents] before the entry is stored. *)

Definition def_network_analysis : M unit :=
  agent_ <- self_agents_getitem "network_optimizer" ;;
  self_tasks_setitem "network_analysis"
    {| description := "Analyze current network configurations using Netmiko/NAPALM principles, 
            identify optimization opportunities, generate compliance reports, and create automated 
            troubleshooting workflows. Include performance benchmarking and vendor-agnostic 
            configuration templates.
            
            Focus on:
            - Configuration compliance assessment
            - Performance optimization recommendations  
            - Automated troubleshooting script generation
            - Vendor-agnostic template creation
            - Security configuration validation";
       expected_output := "A comprehensive network optimization report containing:
            1. Current configuration analysis with compliance status
            2. Specific optimization recommendations with implementation steps
            3. Performance improvement projections with metrics
            4. Automated troubleshooting scripts ready for deployment
            5. Vendor-agnostic configuration templates
            6. Security assessment and recommendations";
       agent := agent_ |}.

Definition def_maintenance_prediction : M unit :=
  agent_ <- self_agents_getitem "maintenance_engineer" ;;
  self_tasks_setitem "maintenance_prediction"
    {| description := "Process sensor data and time-series information using machine learning 
            principles, generate failure probability assessments, create maintenance schedules, 
            and implement anomaly detection workflows.
            
            Analyze:
            - Historical sensor data patterns
            - Equipment performance trends
            - Failure correlation indicators
            - Maintenance schedule optimization
            - Anomaly detection thresholds";
       expected_output := "A comprehensive maintenance report including:
            1. Equipment health scores with failure probability assessments
            2. Prioritized maintenance schedules with risk-based timing
            3. Anomaly detection alerts with severity levels
            4. Preventive maintenance recommendations
            5. Cost-benefit analysis of maintenance actions
            6. Integration guidelines for ANAI workflows";
       agent := agent_ |}.

Definition def_service_deployment : M unit :=
  agent_ <- self_agents_getitem "deployment_orchestrator" ;;
  self_tasks_setitem "service_deployment"
    {| description := "Execute automated service deployments with comprehensive monitoring, 
            implement rollback procedures, track performance metrics, and maintain compatibility 
            across containerized and native environments.
            
            Manage:
            - Deployment pipeline automation
            - Performance monitoring setup
            - Rollback procedure implementation  
            - Compatibility validation
            - Resource optimization";
       expected_output := "A detailed deployment report containing:
            1. Deployment status with success metrics
            2. Performance monitoring dashboard configurations
            3. Automated rollback procedures and triggers
            4. Compatibility validation results across platforms
            5. Resource utilization optimization recommendations
            6. Integration points for existing CPE middleware";
       agent := agent_ |}.

Definition def_knowledge_curation : M unit :=
  agent_ <- self_agents_getitem "knowledge_curator" ;;
  self_tasks_setitem "knowledge_curation"
    {| description := "Review community-submitted solutions through automated testing and 
            peer review, organize knowledge base, maintain version control, and implement 
            quality scoring mechanisms for shared skill modules.
            
            Process:
            - Community contribution validation
            - Automated quality scoring
            - Peer review coordination
            - Knowledge base organization
            - Version control management";
       expected_output := "A curated knowledge repository report including:
            1. Validated community contributions with quality scores
            2. Organized skill modules with version tracking
            3. Peer review summaries and feedback integration
            4. Quality metrics and community satisfaction ratings
            5. Knowledge base search and discovery improvements
            6. Community engagement and growth analytics";
       agent := agent_ |}.

Definition def_ecosystem_coordination : M unit :=
  agent_ <- self_agents_getitem "ecosystem_coordinator" ;;
  self_tasks_setitem "ecosystem_coordination"
    {| description := "Orchestrate agent interactions, monitor system health, distribute 
            tasks based on priority and agent availability, implement quality control across 
            all outputs, and maintain community ecosystem metrics.
            
            Coordinate:
            - Multi-agent workflow optimization
            - System performance monitoring
            - Quality control implementation
            - Community ecosystem health
            - Strategic planning and improvement";
       expected_output := "A comprehensive ecosystem management report including:
            1. System health dashboard with performance metrics
            2. Agent collaboration efficiency analysis
            3. Task distribution optimization recommendations
            4. Quality control audit results across all components
            5. Community growth metrics and engagement analysis
            6. Strategic recommendations for ecosystem improvement
            7. Integration roadmap for prpl Foundation tools";
       agent := agent_ |}.

(** The five task definitions, in the order of the source. *)
Definition task_definitions : list (M unit) :=
  [def_network_analysis;
   def_maintenance_prediction;
   def_service_deployment;
   def_knowledge_curation;
   def_ecosystem_coordination].

(** [setup_tasks]: the five definitions run one after the other; the first
    one that raises ends the call. *)
Definition setup_tasks : M unit :=
  def_network_analysis ;;
  def_maintenance_prediction ;;
  def_service_deployment ;;
  def_knowledge_curation ;;
  def_ecosystem_coordination.

Section Orchestrator.

(** The result of a run is opaque to the program. *)
Context {RunResult : Type}.

(** [Crew.kickoff(inputs=...)], the sequential execution facility: given the
    crew and the payload it returns a result or raises, and it may print and
    let time pass. *)
Variable kickoff : Crew -> dict Any -> World -> result RunResult * World.

(** [setup_crew()] *)
Definition setup_crew : M unit :=
  setup_agents ;;
  setup_tasks ;;
  agents_ <- self_agents ;;
  tasks_ <- self_tasks ;;
  set_self_crew
    {| crew_agents := values agents_;
       crew_tasks := values tasks_;
       process := sequential;
       crew_verbose := 2 |}.

(** [self.crew.kickoff(inputs=input_data)]; the call is recorded in the
    world.  With no crew the attribute lookup on [None] raises. *)
Definition self_crew_kickoff (input_data : dict Any) : M RunResult :=
  fun self w =>
    match crew self with
    | None =>
        (Raise (Exn AttributeError "'NoneType' object has no attribute 'kickoff'"),
         self, w)
    | Some c =>
        let '(r, w') := kickoff c input_data w in
        (r, self,
         {| clock := clock w'; reads := reads w'; stdout := stdout w';
            kickoffs := kickoffs w ++ [(c, input_data)] |})
    end.

Definition nl : string := String (ascii_of_nat 10) "".

(** [run_analysis(input_data=None)].  [not self.crew] holds exactly when
    there is no crew (a [Crew] object is true); [input_data is None] tells
    a missing payload from an empty one. *)
Definition run_analysis (input_data : option (dict Any)) : M (option RunResult) :=
  crew_ <- self_crew ;;
  match crew_ with None => setup_crew | Some _ => ret tt end ;;
  input_data <-
    match input_data with
    | None =>
        now <- datetime_now ;;
        ret [("network_config", PyStr "Current network configuration data");
             ("sensor_data", PyStr "Equipment sensor readings and historical data");
             ("service_specs", PyStr "Service deployment specifications");
             ("community_contributions", PyStr "Recent community submissions");
             ("timestamp", PyStr (isoformat now))]
    | Some d => ret d
    end ;;
  now <- datetime_now ;;
  print ("Starting CPE Innovation Framework Analysis at " ++ datetime_str now) ;;
  print "Initializing specialized agents for comprehensive ecosystem analysis..." ;;
  try_except_Exception
    (result_ <- self_crew_kickoff input_data ;;
     print (nl ++ "Analysis completed successfully!") ;;
     print "Generated comprehensive reports for network optimization, predictive maintenance, service deployment, knowledge curation, and ecosystem coordination." ;;
     ret (Some result_))
    (fun e =>
       print ("Error during analysis: " ++ exn_str e) ;;
       ret None).

(** [get_system_status()]: the entries of the dictionary are evaluated in
    the order they are written. *)
Definition get_system_status : M (dict Any) :=
  agents_ <- self_agents ;;
  tasks_ <- self_tasks ;;
  now <- datetime_now ;;
  crew_ <- self_crew ;;
  ret [("framework_status", PyStr "Active");
       ("agents_count", PyInt (Z.of_nat (len agents_)));
       ("tasks_count", PyInt (Z.of_nat (len tasks_)));
       ("last_analysis", PyStr (isoformat now));
       ("crew_initialized", PyBool (match crew_ with Some _ => true | None => false end))].

(** *** The states a client can bring an instance to

    A client builds an instance and calls its methods, in any order, any
    number of times, at any moment; a call that raises leaves the instance
    as the raise found it. *)

Inductive method : Type :=
| call_setup_agents
| call_setup_tasks
| call_setup_crew
| call_run_analysis (input_data : option (dict Any))
| call_get_system_status.

(** The instance after a call. *)
Definition after (m : method) (self : CPEInnovationFramework) (w : World)
  : CPEInnovationFramework :=
  match m with
  | call_setup_agents => (setup_agents self w).1.2
  | call_setup_tasks => (setup_tasks self w).1.2
  | call_setup_crew => (setup_crew self w).1.2
  | call_run_analysis input_data => (run_analysis input_data self w).1.2
  | call_get_system_status => (get_system_status self w).1.2
  end.

Inductive reachable : CPEInnovationFramework -> Prop :=
| reachable_init (environ : gmap string string) :
    reachable (__init__ environ)
| reachable_call (m : method) (self : CPEInnovationFramework) (w : World) :
    reachable self -> reachable (after m self w).


(** The facility returns [V], whatever it is given. *)
Definition always_returns (V : RunResult) : Prop :=
  forall c p w, (kickoff c p w).1 = Return V.

End Orchestrator.

(** *** The entries of a status snapshot *)

Definition agents_count (status : dict Any) : option Any := dict_get "agents_count" status.
Definition tasks_count (status : dict Any) : option Any := dict_get "tasks_count" status.
Definition last_analysis (status : dict Any) : option Any := dict_get "last_analysis" status.
Definition crew_initialized (status : dict Any) : option Any := dict_get "crew_initialized" status.

(** *** The keys of the two registries, in the order the source assigns them,
    and the agent key each task definition looks up *)

Definition AGENT_KEYS : list string :=
  ["network_optimizer"; "maintenance_engineer"; "deployment_orchestrator";
   "knowledge_curator"; "ecosystem_coordinator"].

Definition TASK_KEYS : list string :=
  ["network_analysis"; "maintenance_prediction"; "service_deployment";
   "knowledge_curation"; "ecosystem_coordination"].

Definition task_owner : list (string * string) :=
  [("network_analysis", "network_optimizer");
   ("maintenance_prediction", "maintenance_engineer");
   ("service_deployment", "deployment_orchestrator");
   ("knowledge_curation", "knowledge_curator");
   ("ecosystem_coordination", "ecosystem_coordinator")].


(** A task and an agent under the keys [task_owner] relates: the task stored
    under the first references the agent stored under the second. *)
Definition paired_by_owner (self : CPEInnovationFramework) : Prop :=
  Forall (fun '(tk, ak) =>
            exists t a, dict_get tk (tasks self) = Some t
                        /\ dict_get ak (agents self) = Some a
                        /\ agent t = a)
         task_owner.

(** *** The four states of the instance, for a given client *)

Definition fresh (l : ChatOpenAI) : CPEInnovationFramework :=
  {| llm := l; crew := None; agents := []; tasks := [] |}.

Definition empty_world : World :=
  {| clock := fun _ => Datetime 1970 1 1 0 0 0 0; reads := 0; stdout := []; kickoffs := [] |}.

(** The agent registry [setup_agents] builds and the task registry
    [setup_tasks] builds from it. *)
Definition agents_of (l : ChatOpenAI) : dict Agent :=
  agents (setup_agents (fresh l) empty_world).1.2.

Definition tasks_of (l : ChatOpenAI) : dict Task :=
  tasks (setup_tasks (setup_agents (fresh l) empty_world).1.2 empty_world).1.2.

Definition crew_of (l : ChatOpenAI) : Crew :=
  {| crew_agents := values (agents_of l);
     crew_tasks := values (tasks_of l);
     process := sequential;
     crew_verbose := 2 |}.

Definition with_agents (l : ChatOpenAI) : CPEInnovationFramework :=
  {| llm := l; crew := None; agents := agents_of l; tasks := [] |}.

Definition with_tasks (l : ChatOpenAI) : CPEInnovationFramework :=
  {| llm := l; crew := None; agents := agents_of l; tasks := tasks_of l |}.

Definition composed (l : ChatOpenAI) : CPEInnovationFramework :=
  {| llm := l; crew := Some (crew_of l); agents := agents_of l; tasks := tasks_of l |}.

Inductive shape : CPEInnovationFramework -> Prop :=
| shape_fresh l : shape (fresh l)
| shape_with_agents l : shape (with_agents l)
| shape_with_tasks l : shape (with_tasks l)
| shape_composed l : shape (composed l).

(** ** [Settings] *)

Definition and_then {A B} (r : result A) (k : A -> result B) : result B :=
  match r with
  | Return a => k a
  | Raise e => Raise e
  end.

(** Truth value of an optional string: [None] and [""] are false. *)
Definition truthy (v : option string) : bool :=
  match v with
  | None => false
  | Some s => negb (String.eqb s "")
  end.

Section SettingsClass.

(** The builtins the class body calls: [int(s)], [float(s)] and [s.lower()].
    The first two raise [ValueError] on text they cannot read. *)
Variable float : Type.
Variable py_int : string -> result Z.
Variable py_float : string -> result float.
Variable str_lower : string -> string.

(** The class attributes. *)
Record Settings : Type := {
  OPENAI_API_KEY : option string;
  OPENAI_MODEL : string;
  DEBUG : bool;
  LOG_LEVEL : string;
  NETWORK_TIMEOUT : Z;
  MAX_DEVICES : Z;
  PREDICTION_THRESHOLD : float;
  DEPLOYMENT_TIMEOUT : Z
}.

(** The class body, run once when the module is imported: the attributes are
    computed from the environment in the order of the source, and a
    conversion that raises leaves no class behind. *)
Definition Settings_class (environ : gmap string string) : result Settings :=
  let openai_api_key_ := getenv environ "OPENAI_API_KEY" in
  let openai_model_ := getenv_default environ "OPENAI_MODEL" "gpt-4" in
  let debug_ := String.eqb (str_lower (getenv_default environ "DEBUG" "true")) "true" in
  let log_level_ := getenv_default environ "LOG_LEVEL" "INFO" in
  and_then (py_int (getenv_default environ "NETWORK_TIMEOUT" "30")) (fun network_timeout_ =>
  and_then (py_int (getenv_default environ "MAX_CONCURRENT_DEVICES" "10")) (fun max_devices_ =>
  and_then (py_float (getenv_default environ "MAINTENANCE_PREDICTION_THRESHOLD" "0.7")) (fun prediction_threshold_ =>
  and_then (py_int (getenv_default environ "DEPLOYMENT_TIMEOUT" "300")) (fun deployment_timeout_ =>
  Return {| OPENAI_API_KEY := openai_api_key_;
            OPENAI_MODEL := openai_model_;
            DEBUG := debug_;
            LOG_LEVEL := log_level_;
            NETWORK_TIMEOUT := network_timeout_;
            MAX_DEVICES := max_devices_;
            PREDICTION_THRESHOLD := prediction_threshold_;
            DEPLOYMENT_TIMEOUT := deployment_timeout_ |})))).

(** [Settings.validate()] *)
Definition validate (cls : Settings) : result bool :=
  if negb (truthy (OPENAI_API_KEY cls))
  then Raise (Exn ValueError "OPENAI_API_KEY is required")
  else Return true.

End SettingsClass.

Arguments OPENAI_API_KEY {float} _.
Arguments validate {float} cls.

(** ** Stand-ins for the collaborators, to run the model on examples *)

Module Examples.

(** A clock that advances by one second at each reading. *)
Definition ticking : World :=
  {| clock := fun n => Datetime 2026 1 1 (n / 3600 mod 24) (n / 60 mod 60) (n mod 60) 0;
     reads := 0;
     stdout := [];
     kickoffs := [] |}.

(** A facility that returns [V] and one that raises [e]. *)
Definition stub_returning {RunResult} (V : RunResult)
  : Crew -> dict Any -> World -> result RunResult * World :=
  fun _ _ w => (Return V, w).

Definition stub_raising (e : exn)
  : Crew -> dict Any -> World -> result string * World :=
  fun _ _ w => (Raise e, w).

(** [int] and [float] on plain decimal text, [lower] on ASCII letters. *)
Definition int_decimal (s : string) : result Z :=
  match NilZero.int_of_string s with
  | Some i => Return (Z.of_int i)
  | None => Raise (Exn ValueError ("invalid literal for int() with base 10: " ++ repr s))
  end.

Fixpoint split_dot (s : string) : string * option string :=
  match s with
  | EmptyString => (EmptyString, None)
  | String c s' =>
      if Ascii.eqb c "."%char then (EmptyString, Some s')
      else let '(a, b) := split_dot s' in (String c a, b)
  end.

Definition float_decimal (s : string) : result Q :=
  let bad := Raise (Exn ValueError ("could not convert string to float: " ++ repr s)) in
  match split_dot s with
  | (a, None) =>
      match NilZero.int_of_string a with
      | Some i => Return (inject_Z (Z.of_int i))
      | None => bad
      end
  | (a, Some b) =>
      match NilEmpty.uint_of_string a, NilEmpty.uint_of_string b with
      | Some i, Some f =>
          Return (Qplus (inject_Z (Z.of_uint i))
                        (Qmake (Z.of_uint f) (Pos.pow 10 (Pos.of_nat (String.length b)))))
      | _, _ => bad
      end
  end.

Definition lower_ascii (c : ascii) : ascii :=
  let n := nat_of_ascii c in
  if andb (Nat.leb 65 n) (Nat.leb n 90) then ascii_of_nat (n + 32) else c.

Fixpoint lower (s : string) : string :=
  match s with
  | EmptyString => EmptyString
  | String c s' => String (lower_ascii c) (lower s')
  end.

End Examples.

(** ** Assigning several entries *)

(** [d.update(entries)]: the entries are assigned in order. *)
Definition dict_update {V} (entries : dict V) (d : dict V) : dict V :=
  foldl (fun d '(k, v) => dict_set k v d) d entries.

(** ** Running a list of statements *)

(** The statements one after the other; the first that raises ends the
    run. *)
Fixpoint run_all (ds : list (M unit)) : M unit :=
  match ds with
  | [] => ret tt
  | d :: ds' => d ;; run_all ds'
  end.

(** The shape of a task definition: look the agent up under [ak], build the
    task from it, store the task under [tk]. *)
Definition task_definition (ak tk : string) (mk : Agent -> Task) : M unit :=
  agent_ <- self_agents_getitem ak ;; self_tasks_setitem tk (mk agent_).

(** The first of the five agent keys that a registry lacks, with its
    position. *)
Definition first_missing_agent (d : dict Agent) : option (nat * string) :=
  list_find (fun k => dict_get k d = None) AGENT_KEYS.

(** ** The tools *)

(** The three functions the module decorates with [@tool]; each formats its
    argument, a string, into a fixed sentence. *)
Definition analyze_network_performance (config_data : string) : string :=
  "Network performance analysis completed for: " ++ config_data.

Definition process_sensor_data (sensor_readings : string) : string :=
  "Sensor data processed: " ++ sensor_readings.

Definition validate_deployment (service_spec : string) : string :=
  "Deployment validation completed for: " ++ service_spec.

(** ** Scripts

    A script runs in the world alone and holds the instances it builds in
    local variables. *)

Definition Script (A : Type) : Type := World -> result A * World.

Definition script_ret {A} (a : A) : Script A := fun w => (Return a, w).

Definition script_raise {A} (e : exn) : Script A := fun w => (Raise e, w).

Definition script_bind {A B} (m : Script A) (k : A -> Script B) : Script B :=
  fun w =>
    match m w with
    | (Return a, w') => k a w'
    | (Raise e, w') => (Raise e, w')
    end.

Notation "x <~ m ;; k" := (script_bind m (fun x => k))
  (at level 100, m at next level, right associativity).
Notation "m ~;; k" := (script_bind m (fun _ => k))
  (at level 100, right associativity).

(** [try: body except Exception as e: handler(e)] in a script. *)
Definition script_try_except_Exception {A} (body : Script A) (handler : exn -> Script A)
  : Script A :=
  fun w =>
    match body w with
    | (Return a, w') => (Return a, w')
    | (Raise e, w') =>
        if isinstance_Exception e then handler e w' else (Raise e, w')
    end.

(** [print(s)] in a script. *)
Definition say (s : string) : Script unit :=
  fun w =>
    (Return tt,
     {| clock := clock w; reads := reads w;
        stdout := stdout w ++ [s]; kickoffs := kickoffs w |}).

(** A method called on the instance a variable holds: the value returned
    and the instance after the call. *)
Definition call {A} (method : M A) (framework : CPEInnovationFramework)
  : Script (A * CPEInnovationFramework) :=
  fun w =>
    match method framework w with
    | (Return a, framework', w') => (Return (a, framework'), w')
    | (Raise e, _, w') => (Raise e, w')
    end.

(** [d[k]] *)
Definition getitem {V} (k : string) (d : dict V) : Script V :=
  match dict_get k d with
  | Some v => script_ret v
  | None => script_raise (Exn KeyError (repr k))
  end.

(** [s * n] *)
Fixpoint str_mul (s : string) (n : nat) : string :=
  match n with
  | O => ""
  | S n' => s ++ str_mul s n'
  end.

(** [sep.join(l)] *)
Fixpoint join (sep : string) (l : list string) : string :=
  match l with
  | [] => ""
  | [s] => s
  | s :: l' => s ++ sep ++ join sep l'
  end.

(** [str(v)], as an f-string renders a value.  An object of another class
    prints by its identity; no value the program prints is one. *)
Definition str_Any (v : Any) : string :=
  match v with
  | PyNone => "None"
  | PyBool true => "True"
  | PyBool false => "False"
  | PyInt z => NilZero.string_of_int (Z.to_int z)
  | PyStr s => s
  | PyObject id => "<object " ++ digits id ++ ">"
  end.

(** [for key, value in status.items(): print(f"  {key}: {value}")] *)
Fixpoint print_items (status : dict Any) : Script unit :=
  match status with
  | [] => script_ret tt
  | (key, value) :: rest =>
      say ("  " ++ key ++ ": " ++ str_Any value) ~;; print_items rest
  end.

(** What an [import] statement does: it binds the module, or raises
    [ImportError], or raises something else. *)
Inductive import_outcome : Type :=
| Imported
| ImportError
| ImportRaises (e : exn).

(** [CPEInnovationFramework()], with a client constructor that may reject its
    arguments: [client_error l] is what [ChatOpenAI] raises on the arguments
    [l], if it raises. *)
Definition new_CPEInnovationFramework
    (client_error : ChatOpenAI -> option exn) (environ : gmap string string)
  : Script CPEInnovationFramework :=
  match client_error (llm (__init__ environ)) with
  | Some e => script_raise e
  | None => script_ret (__init__ environ)
  end.

(** *** [test_setup.py] *)

Module test_setup.

(** The attributes of [sys] the script reads; [real_prefix] and
    [base_prefix] may be missing. *)
Record Sys : Type := {
  version_info : nat * nat * nat;
  real_prefix : option string;
  base_prefix : option string;
  prefix : string
}.

Section Script.

Variable sys : Sys.
Variable environ : gmap string string.

(** [from dotenv import load_dotenv; load_dotenv()] and [__import__(package)]. *)
Variable import_module : string -> import_outcome.

(** [from main import CPEInnovationFramework]: what it raises, if it
    raises. *)
Variable import_main : option exn.

Variable client_error : ChatOpenAI -> option exn.

Definition required_packages : list (string * string) :=
  [("crewai", "CrewAI");
   ("langchain", "LangChain");
   ("langchain_openai", "LangChain OpenAI");
   ("pandas", "Pandas");
   ("numpy", "NumPy");
   ("sklearn", "Scikit-learn")].

(** The loop over the required packages: every package is tried, and the
    ones whose import raises [ImportError] are collected. *)
Fixpoint import_packages (packages : list (string * string)) (missing_packages : list string)
  : Script (list string) :=
  match packages with
  | [] => script_ret missing_packages
  | (package, name) :: rest =>
      match import_module package with
      | Imported =>
          say ("✅ " ++ name ++ " imported successfully") ~;;
          import_packages rest missing_packages
      | ImportError =>
          say ("❌ " ++ name ++ " import failed") ~;;
          import_packages rest (missing_packages ++ [package])
      | ImportRaises e => script_raise e
      end
  end.

(** The packages of a list whose import raises [ImportError], in order. *)
Definition import_fails (package : string) : bool :=
  match import_module package with
  | ImportError => true
  | _ => false
  end.

Definition not_importable (packages : list (string * string)) : list string :=
  (List.filter (fun p => import_fails p.1) packages).*1.

Definition in_virtualenv : bool :=
  match real_prefix sys with
  | Some _ => true
  | None =>
      match base_prefix sys with
      | Some b => negb (String.eqb b (prefix sys))
      | None => false
      end
  end.

Definition api_key_set : bool :=
  match getenv environ "OPENAI_API_KEY" with
  | Some api_key =>
      negb (String.eqb api_key "")
      && negb (String.eqb api_key "your_openai_api_key_here")
  | None => false
  end.

(** The body of the last [try] of [test_environment]; extending [sys.path]
    shows only in what the import of [main] does. *)
Definition framework_initialization : Script bool :=
  match import_main with
  | Some e => script_raise e
  | None => script_ret tt
  end ~;;
  framework <~ new_CPEInnovationFramework client_error environ ;;
  r <~ call get_system_status framework ;;
  let status := r.1 in
  say "✅ Framework initialized successfully" ~;;
  agents_count_ <~ getitem "agents_count" status ;;
  say ("   Agents: " ++ str_Any agents_count_) ~;;
  tasks_count_ <~ getitem "tasks_count" status ;;
  say ("   Tasks: " ++ str_Any tasks_count_) ~;;
  framework_status_ <~ getitem "framework_status" status ;;
  say ("   Status: " ++ str_Any framework_status_) ~;;
  script_ret true.

(** [test_environment()].  The environment is read after [load_dotenv()] has
    filled it. *)
Definition test_environment : Script bool :=
  say "CPE Innovation Framework - Environment Test" ~;;
  say (str_mul "=" 50) ~;;
  let '(major, minor, micro) := version_info sys in
  say ("Python Version: " ++ digits major ++ "." ++ digits minor ++ "." ++ digits micro) ~;;
  if (major <? 3)%nat || ((major =? 3)%nat && (minor <? 8)%nat) then
    say "❌ Python 3.8+ required" ~;;
    script_ret false
  else
    say "✅ Python version OK" ~;;
    (if in_virtualenv
     then say "✅ Virtual environment activated"
     else say "⚠️  Virtual environment not detected (recommended but not required)") ~;;
    match import_module "dotenv" with
    | ImportRaises e => script_raise e
    | ImportError =>
        say "❌ python-dotenv not installed - run: pip install python-dotenv" ~;;
        script_ret false
    | Imported =>
        say "✅ dotenv loaded successfully" ~;;
        if api_key_set then
          say "✅ OpenAI API key configured" ~;;
          missing_packages <~ import_packages required_packages [] ;;
          match missing_packages with
          | _ :: _ =>
              say (nl ++ "Missing packages: " ++ join ", " missing_packages) ~;;
              say "Run: pip install -r requirements.txt" ~;;
              script_ret false
          | [] =>
              say (nl ++ str_mul "=" 50) ~;;
              say "Environment test completed!" ~;;
              say (nl ++ "Testing framework initialization...") ~;;
              script_try_except_Exception
                framework_initialization
                (fun e =>
                   say ("❌ Framework initialization failed: " ++ exn_str e) ~;;
                   script_ret false)
          end
        else
          say "❌ OpenAI API key not set - edit your .env file" ~;;
          script_ret false
    end.

(** The checks of [test_environment] in the order it makes them, and what
    each leads to: the value returned, or what is raised. *)
Definition checks_outcome : result bool :=
  let '(major, minor, _) := version_info sys in
  if (major <? 3)%nat || ((major =? 3)%nat && (minor <? 8)%nat) then Return false
  else
    match import_module "dotenv" with
    | ImportRaises e => Raise e
    | ImportError => Return false
    | Imported =>
        if api_key_set then
          match (import_packages required_packages [] empty_world).1 with
          | Raise e => Raise e
          | Return (_ :: _) => Return false
          | Return [] =>
              match import_main, client_error (llm (__init__ environ)) with
              | Some e, _ | None, Some e =>
                  if isinstance_Exception e then Return false else Raise e
              | None, None => Return true
              end
          end
        else Return false
    end.

(** Every check passes: Python is 3.8 or later, [dotenv] is importable, the
    key is set to something else than the placeholder, the six packages are
    importable, [main] is importable and the client accepts its arguments. *)
Definition all_checks_pass : Prop :=
  (let '(major, minor, _) := version_info sys in
   (3 < major \/ (major = 3 /\ 8 <= minor))%nat)
  /\ import_module "dotenv" = Imported
  /\ (exists key, getenv environ "OPENAI_API_KEY" = Some key
                  /\ key <> "" /\ key <> "your_openai_api_key_here")
  /\ Forall (fun p => import_module p.1 = Imported) required_packages
  /\ import_main = None
  /\ client_error (llm (__init__ environ)) = None.

(** [main()]: the exit status. *)
Definition main : Script Z :=
  success <~ test_environment ;;
  if success then
    say (nl ++ "🎉 Setup successful! You're ready to use the CPE Innovation Framework.") ~;;
    say (nl ++ "Next steps:") ~;;
    say "1. Run: python src/main.py" ~;;
    say "2. Check the documentation in docs/" ~;;
    say "3. Try the examples in examples/" ~;;
    script_ret 0%Z
  else
    say (nl ++ "❌ Setup incomplete. Please fix the issues above.") ~;;
    script_ret 1%Z.

End Script.

End test_setup.

(** *** [examples/basic_usage.py] *)

Module basic_usage.

Section Script.

Context {RunResult : Type}.
Variable kickoff : Crew -> dict Any -> World -> result RunResult * World.

(** The truth value of a result, as [if result:] takes it. *)
Variable bool_ : RunResult -> bool.

Variable environ : gmap string string.
Variable client_error : ChatOpenAI -> option exn.

Definition sample_data : dict Any :=
  [("network_config", PyStr "Enterprise CPE network with 50 devices - Cisco routers, Juniper switches, Arista APs");
   ("sensor_data", PyStr "Temperature: 18-45C, CPU: 25-85%, Memory: 40-90%, vibration normal");
   ("service_specs", PyStr "Deploy security monitoring service v3.2 with threat detection");
   ("community_contributions", PyStr "New mesh optimization algorithm, enhanced NAPALM drivers");
   ("analysis_type", PyStr "comprehensive_ecosystem_analysis")].

(** The world in which [main], started in [w] with a client that accepts
    its arguments, calls the facility: the clock has been read twice (by the
    first status request and by [run_analysis]), and the lines up to the
    start of the analysis have been printed. *)
Definition world_at_kickoff (w : World) : World :=
  {| clock := clock w;
     reads := S (S (reads w));
     stdout :=
       stdout w
       ++ ["CPE Innovation Framework - Full Analysis Test";
           str_mul "=" 50;
           "Framework initialized successfully";
           (nl ++ "Initial System Status:")%string;
           "  framework_status: Active";
           "  agents_count: 0";
           "  tasks_count: 0";
           ("  last_analysis: " ++ isoformat (clock w (reads w)))%string;
           "  crew_initialized: False";
           (nl ++ "Sample data prepared for analysis")%string;
           (nl ++ "Starting full analysis with all 5 agents...")%string;
           "This may take 2-3 minutes as agents process data...";
           ("Starting CPE Innovation Framework Analysis at "
            ++ datetime_str (clock w (S (reads w))))%string;
           "Initializing specialized agents for comprehensive ecosystem analysis..."];
     kickoffs := kickoffs w |}.

(** [main()].  [load_dotenv()] has filled the environment by the time it is
    read; the imports are made when the module is loaded, before [main]. *)
Definition main : Script unit :=
  say "CPE Innovation Framework - Full Analysis Test" ~;;
  say (str_mul "=" 50) ~;;
  script_try_except_Exception
    (framework <~ new_CPEInnovationFramework client_error environ ;;
     say "Framework initialized successfully" ~;;
     r <~ call get_system_status framework ;;
     let '(status, framework) := r in
     say (nl ++ "Initial System Status:") ~;;
     print_items status ~;;
     say (nl ++ "Sample data prepared for analysis") ~;;
     say (nl ++ "Starting full analysis with all 5 agents...") ~;;
     say "This may take 2-3 minutes as agents process data..." ~;;
     r <~ call (run_analysis kickoff (Some sample_data)) framework ;;
     let '(result_, framework) := r in
     if match result_ with Some v => bool_ v | None => false end then
       say (nl ++ str_mul "=" 50) ~;;
       say "ANALYSIS COMPLETED SUCCESSFULLY!" ~;;
       say (str_mul "=" 50) ~;;
       r <~ call get_system_status framework ;;
       let '(final_status, framework) := r in
       say (nl ++ "Final System Status:") ~;;
       print_items final_status ~;;
       say (nl ++ "All 5 agents have been created and executed their tasks!") ~;;
       say "Your CPE Innovation Framework is fully operational!"
     else
       say "Analysis completed but returned no result")
    (fun e =>
       say ("Error: " ++ exn_str e) ~;;
       say "Check your OpenAI API key and network connection").

End Script.

End basic_usage.

(** ** More stand-ins, for the scripts *)

Module MoreExamples.

Definition python_3_7 : test_setup.Sys :=
  {| test_setup.version_info := (3, 7, 9)%nat;
     test_setup.real_prefix := None;
     test_setup.base_prefix := Some "/usr";
     test_setup.prefix := "/usr" |}.

Definition python_3_11 : test_setup.Sys :=
  {| test_setup.version_info := (3, 11, 4)%nat;
     test_setup.real_prefix := None;
     test_setup.base_prefix := Some "/usr";
     test_setup.prefix := "/home/user/venv" |}.

Definition all_importable : string -> import_outcome := fun _ => Imported.

Definition without_pandas_numpy : string -> import_outcome :=
  fun package =>
    if String.eqb package "pandas" then ImportError
    else if String.eqb package "numpy" then ImportError
    else Imported.

Definition accepting : ChatOpenAI -> option exn := fun _ => None.

Definition rejecting (e : exn) : ChatOpenAI -> option exn := fun _ => Some e.

(** The truth value of a string. *)
Definition nonempty (s : string) : bool := negb (String.eqb s "").

Definition with_key : gmap string string := <["OPENAI_API_KEY" := "sk-test123"]> ∅.

End MoreExamples.

(** * Properties *)

(** ** Dictionaries *)

Section DictFacts.

Context {V : Type}.
Implicit Types (d : dict V) (k : string) (v : V).

Lemma dict_get_set d k k' v :
  dict_get k' (dict_set k v d) = if decide (k' = k) then Some v else dict_get k' d.
Proof.
  induction d as [|[k0 v0] d IH]; simpl.
  - reflexivity.
  - destruct (decide (k = k0)) as [->|Hk]; simpl.
    + destruct (decide (k' = k0)); reflexivity.
    + rewrite IH. destruct (decide (k' = k0)) as [->|]; [|reflexivity].
      destruct (decide (k0 = k)); congruence.
Qed.

Lemma dict_get_set_eq d k v : dict_get k (dict_set k v d) = Some v.
Proof. rewrite dict_get_set. destruct (decide (k = k)); congruence. Qed.

Lemma dict_get_set_ne d k k' v : k' <> k -> dict_get k' (dict_set k v d) = dict_get k' d.
Proof. intros H. rewrite dict_get_set. destruct (decide (k' = k)); congruence. Qed.

Lemma dict_set_is_Some_eq d k v : is_Some (dict_get k (dict_set k v d)).
Proof. rewrite dict_get_set_eq. eauto. Qed.

(** Assignment removes no key. *)
Lemma dict_set_is_Some d k k' v :
  is_Some (dict_get k' d) -> is_Some (dict_get k' (dict_set k v d)).
Proof. intros H. rewrite dict_get_set. destruct (decide (k' = k)); eauto. Qed.

Lemma dict_get_None d k : dict_get k d = None <-> k ∉ keys d.
Proof.
  unfold keys. induction d as [|[k0 v0] d IH]; simpl.
  - split; [intros _; apply not_elem_of_nil | reflexivity].
  - rewrite not_elem_of_cons. destruct (decide (k = k0)); split.
    + discriminate.
    + intros [? _]. contradiction.
    + intros H. split; [assumption | apply IH, H].
    + intros [_ H]. apply IH, H.
Qed.

Lemma keys_set_present d k v : k ∈ keys d -> keys (dict_set k v d) = keys d.
Proof.
  unfold keys. induction d as [|[k0 v0] d IH]; simpl; intros Hin.
  - apply elem_of_nil in Hin. contradiction.
  - destruct (decide (k = k0)) as [->|Hk]; simpl; [reflexivity|].
    apply elem_of_cons in Hin as [?|Hin]; [contradiction|].
    f_equal. apply IH, Hin.
Qed.

Lemma keys_set_absent d k v : k ∉ keys d -> keys (dict_set k v d) = keys d ++ [k].
Proof.
  unfold keys. induction d as [|[k0 v0] d IH]; simpl; intros Hnin.
  - reflexivity.
  - apply not_elem_of_cons in Hnin as [Hk Hnin].
    destruct (decide (k = k0)); [contradiction|]. simpl.
    f_equal. apply IH, Hnin.
Qed.

(** Assignment keeps the keys distinct. *)
Lemma dict_set_NoDup d k v : NoDup (keys d) -> NoDup (keys (dict_set k v d)).
Proof.
  intros Hd. destruct (decide (k ∈ keys d)) as [Hin|Hnin].
  - rewrite keys_set_present; assumption.
  - rewrite keys_set_absent by assumption.
    apply NoDup_app. split; [assumption|]. split.
    + intros x Hx Hx'. apply list_elem_of_singleton in Hx'. subst. contradiction.
    + apply NoDup_singleton.
Qed.

(** Assigning the value a key already holds changes nothing. *)
Lemma dict_set_same d k v : dict_get k d = Some v -> dict_set k v d = d.
Proof.
  induction d as [|[k0 v0] d IH]; simpl; [discriminate|].
  destruct (decide (k = k0)) as [->|Hk]; intros H.
  - congruence.
  - f_equal. apply IH, H.
Qed.

Lemma len_keys d : len d = length (keys d).
Proof. unfold len, keys. symmetry. apply length_fmap. Qed.

End DictFacts.

(** ** The monad *)

Lemma bind_Return {A B} (m : M A) (k : A -> M B) self w a self' w' :
  m self w = (Return a, self', w') -> bind m k self w = k a self' w'.
Proof. intros H. unfold bind. rewrite H. reflexivity. Qed.

Lemma bind_Raise {A B} (m : M A) (k : A -> M B) self w e self' w' :
  m self w = (Raise e, self', w') -> bind m k self w = (Raise e, self', w').
Proof. intros H. unfold bind. rewrite H. reflexivity. Qed.

(** ** The registries *)

Lemma agents_of_keys l : keys (agents_of l) = AGENT_KEYS.
Proof. reflexivity. Qed.

Lemma tasks_of_keys l : keys (tasks_of l) = TASK_KEYS.
Proof. reflexivity. Qed.

Lemma task_owner_keys : task_owner.*1 = TASK_KEYS /\ task_owner.*2 = AGENT_KEYS.
Proof. split; reflexivity. Qed.

Lemma AGENT_KEYS_NoDup : NoDup AGENT_KEYS.
Proof. apply (bool_decide_unpack _). vm_compute. reflexivity. Qed.

Lemma TASK_KEYS_NoDup : NoDup TASK_KEYS.
Proof. apply (bool_decide_unpack _). vm_compute. reflexivity. Qed.

(** [setup_agents] on the four states. *)
Lemma setup_agents_fresh l w : setup_agents (fresh l) w = (Return tt, with_agents l, w).
Proof. reflexivity. Qed.

Lemma setup_agents_with_agents l w :
  setup_agents (with_agents l) w = (Return tt, with_agents l, w).
Proof. reflexivity. Qed.

Lemma setup_agents_with_tasks l w :
  setup_agents (with_tasks l) w = (Return tt, with_tasks l, w).
Proof. reflexivity. Qed.

Lemma setup_agents_composed l w :
  setup_agents (composed l) w = (Return tt, composed l, w).
Proof. reflexivity. Qed.

(** [setup_tasks] on the four states. *)
Lemma setup_tasks_fresh l w :
  setup_tasks (fresh l) w = (Raise (Exn KeyError "'network_optimizer'"), fresh l, w).
Proof. reflexivity. Qed.

Lemma setup_tasks_with_agents l w :
  setup_tasks (with_agents l) w = (Return tt, with_tasks l, w).
Proof. reflexivity. Qed.

Lemma setup_tasks_with_tasks l w :
  setup_tasks (with_tasks l) w = (Return tt, with_tasks l, w).
Proof. reflexivity. Qed.

Lemma setup_tasks_composed l w :
  setup_tasks (composed l) w = (Return tt, composed l, w).
Proof. reflexivity. Qed.

(** [setup_crew] brings each of them to the composed state. *)
Lemma setup_crew_shape self w :
  shape self -> setup_crew self w = (Return tt, composed (llm self), w).
Proof. intros []; reflexivity. Qed.

(** The registries [setup_crew] leaves are paired through [task_owner]. *)
Lemma composed_paired_by_owner l : paired_by_owner (composed l).
Proof.
  unfold paired_by_owner, task_owner.
  repeat apply List.Forall_cons; try apply List.Forall_nil.
  all: eexists _, _; split; [vm_compute; reflexivity|];
    split; [vm_compute; reflexivity | reflexivity].
Qed.

Lemma with_tasks_paired_by_owner l : paired_by_owner (with_tasks l).
Proof. exact (composed_paired_by_owner l). Qed.

(** [setup_agents] never raises and, whatever the registry held, leaves an
    agent under each of the five keys; nothing else changes. *)
Lemma setup_agents_total self w :
  exists self',
    setup_agents self w = (Return tt, self', w)
    /\ llm self' = llm self /\ crew self' = crew self /\ tasks self' = tasks self
    /\ Forall (fun k => is_Some (dict_get k (agents self'))) AGENT_KEYS.
Proof.
  exists (setup_agents self w).1.2. repeat split.
  repeat constructor;
    repeat first [ apply dict_set_is_Some_eq | apply dict_set_is_Some ].
Qed.

(** A task definition whose lookup succeeds stores its task. *)
Lemma task_definition_found ak tk (mk : Agent -> Task) self w a :
  dict_get ak (agents self) = Some a ->
  (agent_ <- self_agents_getitem ak ;; self_tasks_setitem tk (mk agent_)) self w
  = (Return tt,
     {| llm := llm self; crew := crew self; agents := agents self;
        tasks := dict_set tk (mk a) (tasks self) |},
     w).
Proof. intros H. unfold bind, self_agents_getitem. rewrite H. reflexivity. Qed.

(** A task definition whose lookup fails raises [KeyError] and stores
    nothing. *)
Lemma task_definition_missing ak tk (mk : Agent -> Task) self w :
  dict_get ak (agents self) = None ->
  (agent_ <- self_agents_getitem ak ;; self_tasks_setitem tk (mk agent_)) self w
  = (Raise (Exn KeyError (repr ak)), self, w).
Proof. intros H. unfold bind, self_agents_getitem. rewrite H. reflexivity. Qed.

(** With an agent under each of the five keys, no lookup of [setup_tasks]
    fails: the call returns, with a task under each of the five task keys;
    nothing else changes. *)
Lemma setup_tasks_total self w :
  Forall (fun k => is_Some (dict_get k (agents self))) AGENT_KEYS ->
  exists self',
    setup_tasks self w = (Return tt, self', w)
    /\ llm self' = llm self /\ crew self' = crew self /\ agents self' = agents self
    /\ Forall (fun k => is_Some (dict_get k (tasks self'))) TASK_KEYS.
Proof.
  intros H. unfold AGENT_KEYS in H.
  repeat match goal with
         | H : Forall _ (_ :: _) |- _ =>
             apply Forall_cons in H; destruct H as [[? ?] H]
         end.
  clear H. unfold setup_tasks.
  erewrite bind_Return
    by (unfold def_network_analysis; apply task_definition_found; eassumption).
  cbn [llm crew agents tasks].
  erewrite bind_Return
    by (unfold def_maintenance_prediction; apply task_definition_found; eassumption).
  cbn [llm crew agents tasks].
  erewrite bind_Return
    by (unfold def_service_deployment; apply task_definition_found; eassumption).
  cbn [llm crew agents tasks].
  erewrite bind_Return
    by (unfold def_knowledge_curation; apply task_definition_found; eassumption).
  cbn [llm crew agents tasks].
  unfold def_ecosystem_coordination.
  erewrite task_definition_found by eassumption.
  cbn [llm crew agents tasks].
  eexists. split; [reflexivity|]. repeat split.
  repeat constructor;
    repeat first [ apply dict_set_is_Some_eq | apply dict_set_is_Some ].
Qed.

(** ** The orchestrator *)

Section OrchestratorFacts.

Context {RunResult : Type}.
Variable kickoff : Crew -> dict Any -> World -> result RunResult * World.

(** A status request leaves the instance alone. *)
Lemma get_system_status_self self w : (get_system_status self w).1.2 = self.
Proof. reflexivity. Qed.

(** Without a crew, a run composes and then goes on as a run of the composed
    instance does. *)
Lemma run_analysis_uncomposed input_data self w self' c :
  crew self = None ->
  setup_crew self w = (Return tt, self', w) ->
  crew self' = Some c ->
  run_analysis kickoff input_data self w = run_analysis kickoff input_data self' w.
Proof.
  intros Hnone Hsetup Hsome. unfold run_analysis.
  rewrite (bind_Return self_crew _ self w (crew self) self w) by reflexivity.
  rewrite (bind_Return self_crew _ self' w (crew self') self' w) by reflexivity.
  rewrite Hnone, Hsome.
  rewrite (bind_Return setup_crew _ self w tt self' w) by exact Hsetup.
  reflexivity.
Qed.

(** A run of an instance that has a crew: the payload is the one given, or
    the default one stamped with the clock; the facility is called once with
    it; what the facility returns is returned, what it raises is turned into
    [None] when its class derives from [Exception] and raised further when it
    does not.  The instance is not touched. *)
Lemma run_analysis_with_crew input_data self w c :
  crew self = Some c ->
  exists p w1,
    match input_data with
    | Some d => p = d
    | None => dict_get "timestamp" p = Some (PyStr (isoformat (clock w (reads w))))
    end
    /\ forall r w2, kickoff c p w1 = (r, w2) ->
       exists w3,
         kickoffs w3 = kickoffs w ++ [(c, p)]
         /\ run_analysis kickoff input_data self w =
            (match r with
             | Return v => Return (Some v)
             | Raise e => if isinstance_Exception e then Return None else Raise e
             end, self, w3).
Proof.
  intros Hc. unfold run_analysis.
  rewrite (bind_Return self_crew _ self w (crew self) self w) by reflexivity.
  rewrite Hc.
  rewrite (bind_Return (ret tt) _ self w tt self w) by reflexivity.
  destruct input_data as [d|].
  - eexists d, _. split; [reflexivity|]. intros r w2 E.
    unfold bind, ret, datetime_now, print, try_except_Exception, self_crew_kickoff.
    cbn [clock reads stdout kickoffs]. rewrite Hc, E.
    destruct r as [v|e]; [|destruct (isinstance_Exception e)];
      (eexists; split; [|reflexivity]; reflexivity).
  - eexists _, _. split; [|intros r w2 E].
    2:{ unfold bind, ret, datetime_now, print, try_except_Exception, self_crew_kickoff.
        cbn [clock reads stdout kickoffs]. rewrite Hc, E.
        destruct r as [v|e]; [|destruct (isinstance_Exception e)];
          (eexists; split; [|reflexivity]; reflexivity). }
    reflexivity.
Qed.

(** With or without a crew at the start, a run ends in the composed state
    and calls the facility once, with the crew [setup_crew] builds. *)
Lemma run_analysis_shape input_data self w :
  shape self ->
  exists p w1,
    match input_data with
    | Some d => p = d
    | None => dict_get "timestamp" p = Some (PyStr (isoformat (clock w (reads w))))
    end
    /\ forall r w2, kickoff (crew_of (llm self)) p w1 = (r, w2) ->
       exists w3,
         kickoffs w3 = kickoffs w ++ [(crew_of (llm self), p)]
         /\ run_analysis kickoff input_data self w =
            (match r with
             | Return v => Return (Some v)
             | Raise e => if isinstance_Exception e then Return None else Raise e
             end, composed (llm self), w3).
Proof.
  intros Hs.
  assert (Hrun : run_analysis kickoff input_data self w
                 = run_analysis kickoff input_data (composed (llm self)) w).
  { destruct Hs as [l|l|l|l]; [| | |reflexivity];
      apply run_analysis_uncomposed with (c := crew_of l); reflexivity. }
  rewrite Hrun.
  apply (run_analysis_with_crew input_data (composed (llm self)) w). reflexivity.
Qed.

Lemma run_analysis_self input_data self w :
  shape self -> (run_analysis kickoff input_data self w).1.2 = composed (llm self).
Proof.
  intros Hs.
  destruct (run_analysis_shape input_data self w Hs) as (p & w1 & _ & H).
  destruct (H _ _ (surjective_pairing _)) as (w3 & _ & ->). reflexivity.
Qed.

(** *** The invariant: an instance is in one of the four states *)

Lemma after_shape m self w : shape self -> shape (after kickoff m self w).
Proof.
  intros Hs. destruct m; cbn [after].
  - destruct Hs; constructor.
  - destruct Hs; constructor.
  - rewrite setup_crew_shape by assumption. constructor.
  - rewrite run_analysis_self by assumption. constructor.
  - rewrite get_system_status_self. assumption.
Qed.

Lemma reachable_shape self : reachable kickoff self -> shape self.
Proof.
  induction 1 as [environ|m self w _ IH].
  - apply shape_fresh.
  - apply after_shape, IH.
Qed.

(** Only composition sets the crew: an instance with a crew is composed. *)
Lemma reachable_composed self :
  reachable kickoff self -> crew self <> None -> self = composed (llm self).
Proof.
  intros Hr Hc. destruct (reachable_shape self Hr); try reflexivity;
    contradiction Hc; reflexivity.
Qed.

(** *** Composition *)


(** C5.  From any state an instance can be in, [setup_crew] returns, and a
    status request made right after it reports 5 agents, 5 tasks and
    [crew_initialized] true. *)
Theorem setup_crew_then_status self w :
  reachable kickoff self ->
  exists self' status w',
    setup_crew self w = (Return tt, self', w)
    /\ get_system_status self' w = (Return status, self', w')
    /\ agents_count status = Some (PyInt 5)
    /\ tasks_count status = Some (PyInt 5)
    /\ crew_initialized status = Some (PyBool true).
Proof.
  intros Hr. apply reachable_shape in Hr.
  eexists (composed (llm self)), _, _.
  split; [apply setup_crew_shape, Hr|].
  split; [reflexivity|]. repeat split.
Qed.

(** C6.  From any state an instance can be in, [setup_crew] returns, and
    calling it again returns too and rebuilds the very same instance: both
    registries keep their five keys, each once, with the same values, and
    the crew is the same. *)
Theorem setup_crew_idempotent self w w' :
  reachable kickoff self ->
  exists self1,
    setup_crew self w = (Return tt, self1, w)
    /\ setup_crew self1 w' = (Return tt, self1, w')
    /\ keys (agents self1) = AGENT_KEYS /\ keys (tasks self1) = TASK_KEYS
    /\ NoDup (keys (agents self1)) /\ NoDup (keys (tasks self1))
    /\ len (agents self1) = 5 /\ len (tasks self1) = 5.
Proof.
  intros Hr. apply reachable_shape in Hr.
  exists (composed (llm self)).
  split; [apply setup_crew_shape, Hr|].
  split; [apply (setup_crew_shape (composed (llm self))), shape_composed|].
  split; [reflexivity|]. split; [reflexivity|].
  split; [apply AGENT_KEYS_NoDup|]. split; [apply TASK_KEYS_NoDup|].
  split; reflexivity.
Qed.

(** C9.  From any state an instance can be in, once [setup_agents] has
    returned every agent key a task definition looks up is present, each of
    the five task definitions returns, and so does [setup_tasks], which
    leaves exactly the five tasks, each referencing its owner. *)
Theorem setup_tasks_after_setup_agents self w :
  reachable kickoff self ->
  exists self1 self2,
    setup_agents self w = (Return tt, self1, w)
    /\ Forall (fun '(_, ak) => is_Some (dict_get ak (agents self1))) task_owner
    /\ Forall (fun d => exists s, d self1 w = (Return tt, s, w)) task_definitions
    /\ setup_tasks self1 w = (Return tt, self2, w)
    /\ keys (tasks self2) = TASK_KEYS
    /\ len (tasks self2) = 5
    /\ paired_by_owner self2.
Proof.
  intros Hr. apply reachable_shape in Hr.
  destruct Hr as [l|l|l|l];
    [ exists (with_agents l), (with_tasks l)
    | exists (with_agents l), (with_tasks l)
    | exists (with_tasks l), (with_tasks l)
    | exists (composed l), (composed l) ];
    (split; [reflexivity|]);
    (split; [repeat apply List.Forall_cons; try apply List.Forall_nil;
             eexists; reflexivity|]);
    (split; [repeat apply List.Forall_cons; try apply List.Forall_nil;
             eexists; reflexivity|]);
    (split; [reflexivity|]); (split; [reflexivity|]); (split; [reflexivity|]);
    first [ apply with_tasks_paired_by_owner | apply composed_paired_by_owner ].
Qed.

(** *** Runs *)



(** C3.  From any state an instance can be in, when the facility returns
    [V] whatever it is given: a run on the empty payload hands the facility
    that empty payload and returns [V]; a run on no payload hands it a
    payload whose ["timestamp"] entry is the clock in ISO format and
    returns [V]. *)
Theorem run_analysis_returns_facility_value V self w :
  reachable kickoff self -> always_returns kickoff V ->
  (exists w',
     run_analysis kickoff (Some []) self w
     = (Return (Some V), composed (llm self), w')
     /\ kickoffs w' = kickoffs w ++ [(crew_of (llm self), [])])
  /\ (exists p w',
        run_analysis kickoff None self w
        = (Return (Some V), composed (llm self), w')
        /\ kickoffs w' = kickoffs w ++ [(crew_of (llm self), p)]
        /\ dict_get "timestamp" p = Some (PyStr (isoformat (clock w (reads w))))).
Proof.
  intros Hr Hreturns. apply reachable_shape in Hr. split.
  - destruct (run_analysis_shape (Some []) self w Hr) as (p & w1 & -> & H).
    specialize (Hreturns (crew_of (llm self)) [] w1).
    destruct (kickoff (crew_of (llm self)) [] w1) as [r w2] eqn:E.
    cbn in Hreturns. subst r.
    destruct (H _ _ eq_refl) as (w3 & Hk & Hrun).
    exists w3. split; assumption.
  - destruct (run_analysis_shape None self w Hr) as (p & w1 & Hts & H).
    specialize (Hreturns (crew_of (llm self)) p w1).
    destruct (kickoff (crew_of (llm self)) p w1) as [r w2] eqn:E.
    cbn in Hreturns. subst r.
    destruct (H _ _ eq_refl) as (w3 & Hk & Hrun).
    exists p, w3. repeat split; assumption.
Qed.


End OrchestratorFacts.

(** *** [setup_tasks] on an empty agent registry *)

(** C4.  On a freshly built instance [setup_tasks] fails with [KeyError]:
    the call raises at its first lookup and stores no task, and each of the
    five task definitions, run on that instance, raises [KeyError] for the
    agent key it looks up. *)
Theorem setup_tasks_before_setup_agents environ w :
  setup_tasks (__init__ environ) w
  = (Raise (Exn KeyError (repr "network_optimizer")), __init__ environ, w)
  /\ Forall2 (fun d '(_, ak) =>
                d (__init__ environ) w
                = (Raise (Exn KeyError (repr ak)), __init__ environ, w))
             task_definitions task_owner
  /\ tasks (setup_tasks (__init__ environ) w).1.2 = [].
Proof.
  split; [reflexivity|]. split; [|reflexivity].
  unfold task_definitions, task_owner. repeat constructor.
Qed.

(** *** The status snapshot *)

(** C8, as the code has it.  Whatever the instance went through, a status
    request reads the clock once and reports that reading, in ISO format, as
    [last_analysis]: it is the time of the request.  The request stores
    nothing: the instance is unchanged. *)
Theorem last_analysis_is_request_time self w :
  exists status,
    get_system_status self w
    = (Return status, self,
       {| clock := clock w; reads := S (reads w);
          stdout := stdout w; kickoffs := kickoffs w |})
    /\ last_analysis status = Some (PyStr (isoformat (clock w (reads w)))).
Proof. eexists. split; reflexivity. Qed.

(** ** [Settings] *)

Section SettingsFacts.

Variable float : Type.
Variable py_int : string -> result Z.
Variable py_float : string -> result float.
Variable str_lower : string -> string.

(** The class keeps the credential as the environment has it. *)
Lemma Settings_class_OPENAI_API_KEY environ cls :
  Settings_class float py_int py_float str_lower environ = Return cls ->
  OPENAI_API_KEY cls = getenv environ "OPENAI_API_KEY".
Proof.
  unfold Settings_class, and_then. intros H.
  repeat match type of H with
         | match ?r with Return _ => _ | Raise _ => _ end = _ =>
             destruct r; [|discriminate H]
         end.
  injection H as <-. reflexivity.
Qed.

Lemma truthy_false v : truthy v = false <-> v = None \/ v = Some "".
Proof.
  destruct v as [s|]; simpl.
  - rewrite negb_false_iff, String.eqb_eq. split.
    + intros ->. right. reflexivity.
    + intros [H|H]; congruence.
  - split; [left|]; reflexivity.
Qed.

(** C7.  For a class built from the environment: when [OPENAI_API_KEY] is
    absent from the environment or is the empty string, [validate()] raises
    [ValueError("OPENAI_API_KEY is required")]; when it is a non-empty string,
    [validate()] returns [True]. *)
Theorem validate_requires_credential environ cls :
  Settings_class float py_int py_float str_lower environ = Return cls ->
  (getenv environ "OPENAI_API_KEY" = None \/ getenv environ "OPENAI_API_KEY" = Some "" ->
   validate cls = Raise (Exn ValueError "OPENAI_API_KEY is required"))
  /\ (forall key, getenv environ "OPENAI_API_KEY" = Some key -> key <> "" ->
      validate cls = Return true).
Proof.
  intros Hcls. apply Settings_class_OPENAI_API_KEY in Hcls.
  unfold validate. rewrite Hcls. split.
  - intros H. apply truthy_false in H. rewrite H. reflexivity.
  - intros key Hkey Hne. destruct (truthy (getenv environ "OPENAI_API_KEY")) eqn:E.
    + reflexivity.
    + apply truthy_false in E as [E|E]; congruence.
Qed.

End SettingsFacts.

(** ** The checks of [tests/test_basic.py] and of the specification's
    scenarios that no claim covers *)

(** [test_system_status]: the snapshot of a new instance has
    [framework_status] ["Active"]; it counts no agent and no task and
    reports no crew. *)
Lemma test_system_status environ w :
  exists status w',
    get_system_status (__init__ environ) w = (Return status, __init__ environ, w')
    /\ dict_get "framework_status" status = Some (PyStr "Active")
    /\ agents_count status = Some (PyInt 0)
    /\ tasks_count status = Some (PyInt 0)
    /\ crew_initialized status = Some (PyBool false).
Proof. eexists _, _. split; [reflexivity|]. repeat split. Qed.

(** [test_agent_setup]: after [setup_agents] each expected name is a key
    of [agents]. *)
Lemma test_agent_setup environ w :
  Forall (fun agent_name =>
            is_Some (dict_get agent_name (agents (setup_agents (__init__ environ) w).1.2)))
         ["network_optimizer"; "maintenance_engineer"; "deployment_orchestrator";
          "knowledge_curator"; "ecosystem_coordinator"].
Proof.
  destruct (setup_agents_total (__init__ environ) w) as (self' & -> & _ & _ & _ & H).
  exact H.
Qed.

(** Only the coordinator may delegate. *)
Lemma delegation_flags l :
  (fun '(k, a) => (k, allow_delegation a)) <$> agents_of l
  = [("network_optimizer", false); ("maintenance_engineer", false);
     ("deployment_orchestrator", false); ("knowledge_curator", false);
     ("ecosystem_coordinator", true)].
Proof. reflexivity. Qed.

(** ** The theorems at work on the examples *)






Lemma stub_returning_always_returns {RunResult} (V : RunResult) :
  always_returns (Examples.stub_returning V) V.
Proof. intros c p w. reflexivity. Qed.



Lemma run_analysis_returns_facility_value_witness :
  (exists w',
     run_analysis (Examples.stub_returning "V") (Some []) (__init__ ∅) Examples.ticking
     = (Return (Some "V"), composed (llm (__init__ ∅)), w')
     /\ kickoffs w' = kickoffs Examples.ticking ++ [(crew_of (llm (__init__ ∅)), [])])
  /\ (exists p w',
        run_analysis (Examples.stub_returning "V") None (__init__ ∅) Examples.ticking
        = (Return (Some "V"), composed (llm (__init__ ∅)), w')
        /\ kickoffs w' = kickoffs Examples.ticking ++ [(crew_of (llm (__init__ ∅)), p)]
        /\ dict_get "timestamp" p
           = Some (PyStr (isoformat (clock Examples.ticking (reads Examples.ticking))))).
Proof.
  apply (run_analysis_returns_facility_value (Examples.stub_returning "V")).
  - apply reachable_init.
  - apply stub_returning_always_returns.
Defined.

Lemma setup_crew_then_status_witness :
  exists self' status w',
    setup_crew (__init__ ∅) Examples.ticking = (Return tt, self', Examples.ticking)
    /\ get_system_status self' Examples.ticking = (Return status, self', w')
    /\ agents_count status = Some (PyInt 5)
    /\ tasks_count status = Some (PyInt 5)
    /\ crew_initialized status = Some (PyBool true).
Proof.
  apply (setup_crew_then_status (Examples.stub_returning "V")).
  apply reachable_init.
Defined.

Lemma setup_crew_idempotent_witness :
  exists self1,
    setup_crew (__init__ (<["OPENAI_API_KEY" := "sk-test123"]> ∅)) empty_world
    = (Return tt, self1, empty_world)
    /\ setup_crew self1 Examples.ticking = (Return tt, self1, Examples.ticking)
    /\ keys (agents self1) = AGENT_KEYS /\ keys (tasks self1) = TASK_KEYS
    /\ NoDup (keys (agents self1)) /\ NoDup (keys (tasks self1))
    /\ len (agents self1) = 5 /\ len (tasks self1) = 5.
Proof.
  apply (setup_crew_idempotent (Examples.stub_returning "V")).
  apply reachable_init.
Defined.

Lemma setup_tasks_after_setup_agents_witness :
  exists self1 self2,
    setup_agents (__init__ ∅) empty_world = (Return tt, self1, empty_world)
    /\ Forall (fun '(_, ak) => is_Some (dict_get ak (agents self1))) task_owner
    /\ Forall (fun d => exists s, d self1 empty_world = (Return tt, s, empty_world))
              task_definitions
    /\ setup_tasks self1 empty_world = (Return tt, self2, empty_world)
    /\ keys (tasks self2) = TASK_KEYS
    /\ len (tasks self2) = 5
    /\ paired_by_owner self2.
Proof.
  apply (setup_tasks_after_setup_agents (Examples.stub_returning "V")).
  apply reachable_init.
Defined.


(** C8, as the specification words it, fails: a run takes place while the
    clock shows 00:00:00 and 00:00:01, and the snapshot requested after it
    carries 00:00:02, the time of the request and none of the times the run
    saw. *)
Lemma last_analysis_is_not_run_time :
  exists self1 w1 status w2,
    run_analysis (Examples.stub_returning "V") None (__init__ ∅) Examples.ticking
    = (Return (Some "V"), self1, w1)
    /\ stdout w1 !! 0%nat
       = Some "Starting CPE Innovation Framework Analysis at 2026-01-01 00:00:01"
    /\ reads w1 = 2%nat
    /\ get_system_status self1 w1 = (Return status, self1, w2)
    /\ last_analysis status = Some (PyStr "2026-01-01T00:00:02")
    /\ Forall (fun n => last_analysis status
                        <> Some (PyStr (isoformat (clock Examples.ticking n))))
              (seq 0 (reads w1)).
Proof.
  eexists _, _, _, _.
  split; [vm_compute; reflexivity|]. split; [reflexivity|]. split; [reflexivity|].
  split; [vm_compute; reflexivity|]. split; [reflexivity|].
  repeat constructor; vm_compute; discriminate.
Qed.

Lemma validate_requires_credential_witness :
  let load := Settings_class Q Examples.int_decimal Examples.float_decimal Examples.lower in
  (exists cls, load (<["OPENAI_API_KEY" := "sk-test123"]> ∅) = Return cls
               /\ validate cls = Return true)
  /\ (exists cls, load (<["OPENAI_API_KEY" := ""]> ∅) = Return cls
                  /\ validate cls = Raise (Exn ValueError "OPENAI_API_KEY is required"))
  /\ (exists cls, load ∅ = Return cls
                  /\ validate cls = Raise (Exn ValueError "OPENAI_API_KEY is required")).
Proof.
  intros load. split; [|split]; (eexists; split; [vm_compute; reflexivity|]).
  - match goal with
    | |- validate ?cls = _ =>
        assert (Hload : load (<["OPENAI_API_KEY" := "sk-test123"]> ∅) = Return cls)
          by (vm_compute; reflexivity)
    end.
    apply (proj2 (validate_requires_credential _ _ _ _ _ _ Hload) "sk-test123");
      [vm_compute; reflexivity | discriminate].
  - match goal with
    | |- validate ?cls = _ =>
        assert (Hload : load (<["OPENAI_API_KEY" := ""]> ∅) = Return cls)
          by (vm_compute; reflexivity)
    end.
    apply (proj1 (validate_requires_credential _ _ _ _ _ _ Hload)).
    right. vm_compute. reflexivity.
  - match goal with
    | |- validate ?cls = _ =>
        assert (Hload : load ∅ = Return cls) by (vm_compute; reflexivity)
    end.
    apply (proj1 (validate_requires_credential _ _ _ _ _ _ Hload)).
    left. vm_compute. reflexivity.
Defined.

(** * More of the program *)

Lemma bind_ret_tt (m : M unit) self w : (m ;; ret tt) self w = m self w.
Proof.
  unfold bind, ret. destruct (m self w) as [[[[]|e] s'] w']; reflexivity.
Qed.

Lemma setup_tasks_run_all self w : setup_tasks self w = run_all task_definitions self w.
Proof.
  unfold setup_tasks, task_definitions. cbn [run_all].
  unfold bind at 1 2 3 4 5 6 7 8.
  destruct (def_network_analysis self w) as [[[[]|e] s1] w1]; [|reflexivity].
  destruct (def_maintenance_prediction s1 w1) as [[[[]|e] s2] w2]; [|reflexivity].
  destruct (def_service_deployment s2 w2) as [[[[]|e] s3] w3]; [|reflexivity].
  destruct (def_knowledge_curation s3 w3) as [[[[]|e] s4] w4]; [|reflexivity].
  symmetry. apply bind_ret_tt.
Qed.

Lemma task_definitions_shape :
  Forall2 (fun d ak => exists tk mk, d = task_definition ak tk mk)
          task_definitions AGENT_KEYS.
Proof.
  unfold task_definitions, AGENT_KEYS.
  repeat apply List.Forall2_cons; try apply List.Forall2_nil; eexists _, _; reflexivity.
Qed.

Lemma run_all_first_missing ds ks self w :
  Forall2 (fun d ak => exists tk mk, d = task_definition ak tk mk) ds ks ->
  match list_find (fun k => dict_get k (agents self) = None) ks with
  | None =>
      exists self', run_all ds self w = (Return tt, self', w)
                    /\ agents self' = agents self
  | Some (i, k) =>
      exists self',
        run_all (take i ds) self w = (Return tt, self', w)
        /\ run_all ds self w = (Raise (Exn KeyError (repr k)), self', w)
        /\ agents self' = agents self
  end.
Proof.
  intros H. revert self. induction H as [|d k ds ks (tk & mk & ->) _ IH]; intros self.
  - cbn. eexists. split; reflexivity.
  - cbn [list_find]. destruct (dict_get k (agents self)) as [a|] eqn:Hk.
    + destruct (decide (Some a = None)) as [?|_]; [discriminate|].
      pose proof (task_definition_found k tk mk self w a Hk) as Hd.
      fold (task_definition k tk mk) in Hd.
      specialize (IH {| llm := llm self; crew := crew self; agents := agents self;
                        tasks := dict_set tk (mk a) (tasks self) |}).
      cbn [agents] in IH.
      destruct (list_find _ ks) as [[i k']|]; cbn [fmap option_fmap option_map prod_map fst snd].
      * destruct IH as (self' & H1 & H2 & H3). exists self'.
        cbn [take run_all]. rewrite !(bind_Return _ _ _ _ _ _ _ Hd). auto.
      * destruct IH as (self' & H1 & H2). exists self'.
        cbn [run_all]. rewrite (bind_Return _ _ _ _ _ _ _ Hd). auto.
    + destruct (decide (None = None)) as [_|?]; [|congruence].
      exists self. cbn [take run_all]. split; [reflexivity|]. split; [|reflexivity].
      apply bind_Raise. apply task_definition_missing. exact Hk.
Qed.

(** X1.  [setup_tasks] on any instance: when the registry holds the five
    agent keys it returns; otherwise it raises [KeyError] for the first key
    that is missing, in the order of the definitions, after storing the
    tasks of the definitions before that one.  It never touches the agent
    registry. *)
Theorem setup_tasks_first_missing self w :
  match first_missing_agent (agents self) with
  | None =>
      exists self', setup_tasks self w = (Return tt, self', w)
                    /\ agents self' = agents self
  | Some (i, k) =>
      exists self',
        run_all (take i task_definitions) self w = (Return tt, self', w)
        /\ setup_tasks self w = (Raise (Exn KeyError (repr k)), self', w)
        /\ agents self' = agents self
  end.
Proof.
  rewrite setup_tasks_run_all.
  apply (run_all_first_missing task_definitions AGENT_KEYS self w task_definitions_shape).
Qed.

Section DictUpdateFacts.
Context {V : Type}.
Implicit Types (d entries : dict V) (k : string) (v : V).

Lemma dict_update_cons k v entries d :
  dict_update ((k, v) :: entries) d = dict_update entries (dict_set k v d).
Proof. reflexivity. Qed.

(** Entries under other keys are not touched. *)
Lemma dict_update_other entries d k :
  k ∉ keys entries -> dict_get k (dict_update entries d) = dict_get k d.
Proof.
  revert d. induction entries as [|[k0 v0] entries IH]; intros d Hk.
  - reflexivity.
  - unfold keys in Hk. cbn in Hk. apply not_elem_of_cons in Hk as [Hne Hk].
    rewrite dict_update_cons, IH by exact Hk. apply dict_get_set_ne, Hne.
Qed.

(** Lookup after update: an entry with distinct keys is found as given. *)
Lemma dict_update_lookup entries d k v :
  NoDup (keys entries) -> (k, v) ∈ entries ->
  dict_get k (dict_update entries d) = Some v.
Proof.
  revert d. induction entries as [|[k0 v0] entries IH]; intros d Hnd Hin.
  - apply elem_of_nil in Hin. contradiction.
  - unfold keys in Hnd. cbn in Hnd. apply NoDup_cons in Hnd as [Hk0 Hnd].
    rewrite dict_update_cons. apply elem_of_cons in Hin as [Heq|Hin].
    + injection Heq as -> ->. rewrite dict_update_other by exact Hk0.
      apply dict_get_set_eq.
    + apply IH; assumption.
Qed.

(** Updating with entries the dictionary already holds changes nothing. *)
Lemma dict_update_same entries d :
  (forall k v, (k, v) ∈ entries -> dict_get k d = Some v) ->
  dict_update entries d = d.
Proof.
  revert d. induction entries as [|[k0 v0] entries IH]; intros d H.
  - reflexivity.
  - rewrite dict_update_cons, dict_set_same by (apply H; left).
    apply IH. intros k v Hin. apply H. right. exact Hin.
Qed.

(** Updating twice with the same entries is updating once. *)
Lemma dict_update_idempotent entries d :
  NoDup (keys entries) ->
  dict_update entries (dict_update entries d) = dict_update entries d.
Proof.
  intros Hnd. apply dict_update_same. intros k v Hin.
  apply dict_update_lookup; assumption.
Qed.

End DictUpdateFacts.

(** [setup_agents] is an update of the registry with the five entries. *)
Lemma setup_agents_update self w :
  setup_agents self w
  = (Return tt,
     {| llm := llm self; crew := crew self;
        agents := dict_update (agents_of (llm self)) (agents self);
        tasks := tasks self |},
     w).
Proof. reflexivity. Qed.

(** X2.  [setup_agents] on any instance, whatever its registry holds: it
    returns, a second call changes nothing, each of the five keys holds the
    agent the source gives it, and an entry under any other key is kept as it
    was. *)
Theorem setup_agents_idempotent_any self w w' :
  exists self1,
    setup_agents self w = (Return tt, self1, w)
    /\ setup_agents self1 w' = (Return tt, self1, w')
    /\ (forall k a, (k, a) ∈ agents_of (llm self) ->
                    dict_get k (agents self1) = Some a)
    /\ (forall k, k ∉ AGENT_KEYS -> dict_get k (agents self1) = dict_get k (agents self)).
Proof.
  assert (Hnd : NoDup (keys (agents_of (llm self))))
    by (rewrite agents_of_keys; apply AGENT_KEYS_NoDup).
  eexists. split; [apply setup_agents_update|].
  split; [|split].
  - rewrite setup_agents_update. cbn [llm crew agents tasks].
    rewrite dict_update_idempotent by exact Hnd. reflexivity.
  - cbn [agents]. intros k a Hin. apply dict_update_lookup; assumption.
  - cbn [agents]. intros k Hk. apply dict_update_other.
    rewrite agents_of_keys. exact Hk.
Qed.

Section MoreOrchestratorFacts.

Context {RunResult : Type}.
Variable kickoff : Crew -> dict Any -> World -> result RunResult * World.

(** No method replaces the client. *)
Lemma after_llm m self w : shape self -> llm (after kickoff m self w) = llm self.
Proof.
  intros Hs. destruct m; cbn [after].
  - destruct Hs; reflexivity.
  - destruct Hs; reflexivity.
  - rewrite setup_crew_shape by assumption. reflexivity.
  - rewrite run_analysis_self by assumption. reflexivity.
  - rewrite get_system_status_self. reflexivity.
Qed.

Lemma reachable_llm self :
  reachable kickoff self -> exists environ, llm self = llm (__init__ environ).
Proof.
  induction 1 as [environ|m self w Hr [environ IH]].
  - exists environ. reflexivity.
  - exists environ. rewrite after_llm by (apply (reachable_shape kickoff), Hr). exact IH.
Qed.

Lemma Forall_fmap_replicate {A B} (f : A -> B) (xs : list A) n b :
  f <$> xs = replicate n b -> Forall (fun a => f a = b) xs.
Proof.
  revert n. induction xs as [|x xs IH]; intros n H; [constructor|].
  destruct n as [|n]; [discriminate H|]. cbn in H. injection H as Hx Hxs.
  constructor; [exact Hx | exact (IH n Hxs)].
Qed.

Lemma agents_of_client l :
  Forall (fun a => agent_llm a = l) (values (agents_of l)).
Proof. apply (Forall_fmap_replicate _ _ 5). vm_compute. reflexivity. Qed.

Lemma tasks_of_client l :
  Forall (fun t => agent_llm (agent t) = l) (values (tasks_of l)).
Proof.
  apply (Forall_fmap_replicate (fun t => agent_llm (agent t)) _ 5).
  vm_compute. reflexivity.
Qed.

(** X3.  In every state an instance can be in, the client is the one built
    by [__init__], model ["gpt-4"] at temperature 0.3, and every agent, in
    the registry, in a task or in the crew, carries that same client. *)
Theorem agents_share_client self :
  reachable kickoff self ->
  model (llm self) = "gpt-4"
  /\ temperature (llm self) = 3 # 10
  /\ Forall (fun a => agent_llm a = llm self) (values (agents self))
  /\ Forall (fun t => agent_llm (agent t) = llm self) (values (tasks self))
  /\ (forall c, crew self = Some c ->
        Forall (fun a => agent_llm a = llm self) (crew_agents c)
        /\ Forall (fun t => agent_llm (agent t) = llm self) (crew_tasks c)).
Proof.
  intros Hr. destruct (reachable_llm self Hr) as [environ Hl].
  split; [rewrite Hl; reflexivity|]. split; [rewrite Hl; reflexivity|].
  clear Hl. apply reachable_shape in Hr.
  destruct Hr as [l|l|l|l].
  - split; [constructor|]. split; [constructor|]. intros c Hc. discriminate Hc.
  - split; [apply agents_of_client|]. split; [constructor|].
    intros c Hc. discriminate Hc.
  - split; [apply agents_of_client|]. split; [apply tasks_of_client|].
    intros c Hc. discriminate Hc.
  - split; [apply agents_of_client|]. split; [apply tasks_of_client|].
    intros c Hc. change (Some (crew_of l) = Some c) in Hc. injection Hc as <-.
    split; [apply agents_of_client | apply tasks_of_client].
Qed.


(** X5.  In every state an instance can be in, a status request returns,
    leaves the instance alone and reports ["Active"] with one of four
    combinations: no agent, no task, no crew; five agents, no task, no crew;
    five agents, five tasks, no crew; five agents, five tasks and a crew.
    So it never shows a task without the agents, nor a crew without both. *)
Theorem status_counts_invariant self w :
  reachable kickoff self ->
  exists status w',
    get_system_status self w = (Return status, self, w')
    /\ dict_get "framework_status" status = Some (PyStr "Active")
    /\ ((agents_count status, tasks_count status, crew_initialized status)
        = (Some (PyInt 0), Some (PyInt 0), Some (PyBool false))
        \/ (agents_count status, tasks_count status, crew_initialized status)
           = (Some (PyInt 5), Some (PyInt 0), Some (PyBool false))
        \/ (agents_count status, tasks_count status, crew_initialized status)
           = (Some (PyInt 5), Some (PyInt 5), Some (PyBool false))
        \/ (agents_count status, tasks_count status, crew_initialized status)
           = (Some (PyInt 5), Some (PyInt 5), Some (PyBool true))).
Proof.
  intros Hr. apply reachable_shape in Hr.
  destruct Hr as [l|l|l|l]; eexists _, _; (split; [reflexivity|]);
    (split; [reflexivity|]).
  - left. reflexivity.
  - right; left. reflexivity.
  - right; right; left. reflexivity.
  - right; right; right. reflexivity.
Qed.

(** X6.  In every state an instance can be in, a run calls the facility
    exactly once, whatever the facility does, with the crew of [setup_crew]
    and with the payload it was given when it was given one; it ends in the
    composed state, which is the state it started in when there was a crew. *)
Theorem run_analysis_calls_facility_once input_data self w :
  reachable kickoff self ->
  exists p,
    kickoffs (run_analysis kickoff input_data self w).2
    = kickoffs w ++ [(crew_of (llm self), p)]
    /\ (forall d, input_data = Some d -> p = d)
    /\ (run_analysis kickoff input_data self w).1.2 = composed (llm self)
    /\ (crew self <> None -> (run_analysis kickoff input_data self w).1.2 = self).
Proof.
  intros Hr. pose proof (reachable_shape kickoff self Hr) as Hs.
  destruct (run_analysis_shape kickoff input_data self w Hs) as (p & w1 & Hp & H).
  destruct (H _ _ (surjective_pairing _)) as (w3 & Hk & Hrun).
  exists p. rewrite Hrun. cbn [fst snd]. split; [exact Hk|].
  split; [intros d ->; exact Hp|]. split; [reflexivity|].
  intros Hc. symmetry. apply (reachable_composed kickoff); assumption.
Qed.

Lemma run_analysis_stdout_with_crew input_data self w c :
  crew self = Some c ->
  exists p w1,
    stdout w1
    = stdout w
      ++ [("Starting CPE Innovation Framework Analysis at "
           ++ datetime_str (clock w (match input_data with
                                     | None => S (reads w)
                                     | Some _ => reads w
                                     end)))%string;
          "Initializing specialized agents for comprehensive ecosystem analysis..."]
    /\ forall r w2, kickoff c p w1 = (r, w2) ->
       stdout (run_analysis kickoff input_data self w).2
       = stdout w2
         ++ match r with
            | Return _ =>
                [(nl ++ "Analysis completed successfully!")%string;
                 "Generated comprehensive reports for network optimization, predictive maintenance, service deployment, knowledge curation, and ecosystem coordination."]
            | Raise e =>
                if isinstance_Exception e
                then [("Error during analysis: " ++ exn_str e)%string]
                else []
            end.
Proof.
  intros Hc. unfold run_analysis.
  rewrite (bind_Return self_crew _ self w (crew self) self w) by reflexivity.
  rewrite Hc.
  rewrite (bind_Return (ret tt) _ self w tt self w) by reflexivity.
  destruct input_data as [d|]; eexists _, _; (split; [|intros r w2 E]).
  2,4: unfold bind, ret, datetime_now, print, try_except_Exception, self_crew_kickoff;
       cbn [clock reads stdout kickoffs]; rewrite Hc, E;
       destruct r as [v|e]; [|destruct (isinstance_Exception e)];
       cbn [snd stdout]; rewrite <- ?app_assoc, ?app_nil_r; reflexivity.
  all: cbn [stdout]; rewrite <- app_assoc; reflexivity.
Qed.

(** X7.  In every state an instance can be in, a run prints its two opening
    lines before it calls the facility, the first with the clock as [str]
    renders it; after the call it prints the two closing lines when the
    facility returned, the line ["Error during analysis: "] followed by the
    text of the exception when the exception was caught, and nothing when the
    exception is raised further. *)
Theorem run_analysis_output input_data self w :
  reachable kickoff self ->
  exists p w1,
    stdout w1
    = stdout w
      ++ [("Starting CPE Innovation Framework Analysis at "
           ++ datetime_str (clock w (match input_data with
                                     | None => S (reads w)
                                     | Some _ => reads w
                                     end)))%string;
          "Initializing specialized agents for comprehensive ecosystem analysis..."]
    /\ forall r w2, kickoff (crew_of (llm self)) p w1 = (r, w2) ->
       stdout (run_analysis kickoff input_data self w).2
       = stdout w2
         ++ match r with
            | Return _ =>
                [(nl ++ "Analysis completed successfully!")%string;
                 "Generated comprehensive reports for network optimization, predictive maintenance, service deployment, knowledge curation, and ecosystem coordination."]
            | Raise e =>
                if isinstance_Exception e
                then [("Error during analysis: " ++ exn_str e)%string]
                else []
            end.
Proof.
  intros Hr. apply reachable_shape in Hr.
  assert (Hrun : run_analysis kickoff input_data self w
                 = run_analysis kickoff input_data (composed (llm self)) w).
  { destruct Hr as [l|l|l|l]; [| | |reflexivity];
      apply run_analysis_uncomposed with (c := crew_of l); reflexivity. }
  rewrite Hrun.
  apply (run_analysis_stdout_with_crew input_data (composed (llm self)) w). reflexivity.
Qed.

End MoreOrchestratorFacts.

(** ** The tools *)

Lemma append_inj_r (p s t : string) : (p ++ s = p ++ t)%string -> s = t.
Proof. induction p as [|c p IH]; cbn; intros H; [exact H|]. injection H as H. exact (IH H). Qed.

Lemma substring_all (s : string) : substring 0 (String.length s) s = s.
Proof.
  induction s as [|c s IH]; [reflexivity|].
  change (String c (substring 0 (String.length s) s) = String c s). rewrite IH. reflexivity.
Qed.

Lemma substring_skip (p s : string) :
  substring (String.length p) (String.length s) (p ++ s) = s.
Proof.
  induction p as [|c p IH]; [exact (substring_all s) | exact IH].
Qed.

(** X8.  Each tool returns its sentence followed by the argument: the
    argument can be read back from the result, two arguments give two
    results, and no two tools ever give the same result. *)
Theorem tools_echo_their_input x y :
  substring 44 (String.length x) (analyze_network_performance x) = x
  /\ substring 23 (String.length x) (process_sensor_data x) = x
  /\ substring 37 (String.length x) (validate_deployment x) = x
  /\ (analyze_network_performance x = analyze_network_performance y -> x = y)
  /\ (process_sensor_data x = process_sensor_data y -> x = y)
  /\ (validate_deployment x = validate_deployment y -> x = y)
  /\ analyze_network_performance x <> process_sensor_data y
  /\ analyze_network_performance x <> validate_deployment y
  /\ process_sensor_data x <> validate_deployment y.
Proof.
  split; [exact (substring_skip "Network performance analysis completed for: " x)|].
  split; [exact (substring_skip "Sensor data processed: " x)|].
  split; [exact (substring_skip "Deployment validation completed for: " x)|].
  split; [apply append_inj_r|]. split; [apply append_inj_r|].
  split; [apply append_inj_r|].
  repeat split; discriminate.
Qed.

Section MoreSettingsFacts.

Variable float : Type.
Variable py_int : string -> result Z.
Variable py_float : string -> result float.
Variable str_lower : string -> string.

(** X9.  The class body of [Settings] yields a class exactly when the four
    conversions ([NETWORK_TIMEOUT], [MAX_CONCURRENT_DEVICES],
    [MAINTENANCE_PREDICTION_THRESHOLD], [DEPLOYMENT_TIMEOUT], each with its
    default) all succeed, and then the attributes hold their values; when it
    raises, it raises what the first failing conversion raised, in that
    order, whatever the credential is. *)
Theorem Settings_class_conversions environ :
  ((exists cls, Settings_class float py_int py_float str_lower environ = Return cls)
   <-> (exists a b c d,
          py_int (getenv_default environ "NETWORK_TIMEOUT" "30") = Return a
          /\ py_int (getenv_default environ "MAX_CONCURRENT_DEVICES" "10") = Return b
          /\ py_float (getenv_default environ "MAINTENANCE_PREDICTION_THRESHOLD" "0.7")
             = Return c
          /\ py_int (getenv_default environ "DEPLOYMENT_TIMEOUT" "300") = Return d))
  /\ (forall cls, Settings_class float py_int py_float str_lower environ = Return cls ->
        py_int (getenv_default environ "NETWORK_TIMEOUT" "30")
        = Return (NETWORK_TIMEOUT _ cls)
        /\ py_int (getenv_default environ "MAX_CONCURRENT_DEVICES" "10")
           = Return (MAX_DEVICES _ cls)
        /\ py_float (getenv_default environ "MAINTENANCE_PREDICTION_THRESHOLD" "0.7")
           = Return (PREDICTION_THRESHOLD _ cls)
        /\ py_int (getenv_default environ "DEPLOYMENT_TIMEOUT" "300")
           = Return (DEPLOYMENT_TIMEOUT _ cls)
        /\ OPENAI_MODEL _ cls = getenv_default environ "OPENAI_MODEL" "gpt-4"
        /\ LOG_LEVEL _ cls = getenv_default environ "LOG_LEVEL" "INFO")
  /\ (forall e, Settings_class float py_int py_float str_lower environ = Raise e ->
        py_int (getenv_default environ "NETWORK_TIMEOUT" "30") = Raise e
        \/ (exists a,
              py_int (getenv_default environ "NETWORK_TIMEOUT" "30") = Return a
              /\ py_int (getenv_default environ "MAX_CONCURRENT_DEVICES" "10") = Raise e)
        \/ (exists a b,
              py_int (getenv_default environ "NETWORK_TIMEOUT" "30") = Return a
              /\ py_int (getenv_default environ "MAX_CONCURRENT_DEVICES" "10") = Return b
              /\ py_float (getenv_default environ "MAINTENANCE_PREDICTION_THRESHOLD" "0.7")
                 = Raise e)
        \/ (exists a b c,
              py_int (getenv_default environ "NETWORK_TIMEOUT" "30") = Return a
              /\ py_int (getenv_default environ "MAX_CONCURRENT_DEVICES" "10") = Return b
              /\ py_float (getenv_default environ "MAINTENANCE_PREDICTION_THRESHOLD" "0.7")
                 = Return c
              /\ py_int (getenv_default environ "DEPLOYMENT_TIMEOUT" "300") = Raise e)).
Proof.
  unfold Settings_class, and_then.
  destruct (py_int (getenv_default environ "NETWORK_TIMEOUT" "30")) as [a|e1];
    [destruct (py_int (getenv_default environ "MAX_CONCURRENT_DEVICES" "10")) as [b|e2];
     [destruct (py_float (getenv_default environ "MAINTENANCE_PREDICTION_THRESHOLD" "0.7"))
        as [c|e3];
      [destruct (py_int (getenv_default environ "DEPLOYMENT_TIMEOUT" "300")) as [d|e4]|]|]|].
  - split; [split; [intros _; eauto 10|intros _; eauto]|].
    split; [intros cls [= <-]; repeat split | intros e [=]].
  - split; [split; [intros [cls [=]]|intros (?&?&?&?&_&_&_&[=])]|].
    split; [intros cls [=]|intros e [= <-]; right; right; right; eauto 10].
  - split; [split; [intros [cls [=]]|intros (?&?&?&?&_&_&[=]&_)]|].
    split; [intros cls [=]|intros e [= <-]; right; right; left; eauto 10].
  - split; [split; [intros [cls [=]]|intros (?&?&?&?&_&[=]&_)]|].
    split; [intros cls [=]|intros e [= <-]; right; left; eauto].
  - split; [split; [intros [cls [=]]|intros (?&?&?&?&[=]&_)]|].
    split; [intros cls [=]|intros e [= <-]; left; reflexivity].
Qed.

(** X10.  [Settings] and the framework read the same credential:
    [validate()] returns [True] exactly when the client of a new instance is
    given a non-empty key.  The client's model is ["gpt-4"] whatever
    [OPENAI_MODEL] is. *)
Theorem Settings_and_client_share_credential environ cls :
  Settings_class float py_int py_float str_lower environ = Return cls ->
  OPENAI_API_KEY cls = openai_api_key (llm (__init__ environ))
  /\ (validate cls = Return true
      <-> exists key, openai_api_key (llm (__init__ environ)) = Some key /\ key <> "")
  /\ model (llm (__init__ environ)) = "gpt-4".
Proof.
  intros Hcls. apply Settings_class_OPENAI_API_KEY in Hcls.
  change (openai_api_key (llm (__init__ environ)))
    with (getenv environ "OPENAI_API_KEY").
  split; [exact Hcls|]. split; [|reflexivity].
  unfold validate. rewrite Hcls.
  destruct (getenv environ "OPENAI_API_KEY") as [key|] eqn:E; cbn.
  - destruct (String.eqb_spec key "") as [->|Hne]; cbn; split.
    + discriminate.
    + intros (k & Hk & Hk'). injection Hk as <-. contradiction.
    + intros _. eauto.
    + reflexivity.
  - split; [discriminate|]. intros (k & Hk & _). discriminate Hk.
Qed.

End MoreSettingsFacts.

(** ** Scripts *)

Lemma script_bind_Return {A B} (m : Script A) (k : A -> Script B) w a w' :
  m w = (Return a, w') -> script_bind m k w = k a w'.
Proof. intros H. unfold script_bind. rewrite H. reflexivity. Qed.

Lemma script_bind_Raise {A B} (m : Script A) (k : A -> Script B) w e w' :
  m w = (Raise e, w') -> script_bind m k w = (Raise e, w').
Proof. intros H. unfold script_bind. rewrite H. reflexivity. Qed.

Lemma say_then {B} s (k : Script B) w :
  (say s ~;; k) w
  = k {| clock := clock w; reads := reads w; stdout := stdout w ++ [s];
         kickoffs := kickoffs w |}.
Proof. reflexivity. Qed.

(** The loop over the items of a dictionary prints one line per item. *)
Lemma print_items_then {B} status (k : unit -> Script B) w :
  script_bind (print_items status) k w
  = k tt {| clock := clock w; reads := reads w;
            stdout := stdout w
                      ++ map (fun '(key, value) =>
                                ("  " ++ key ++ ": " ++ str_Any value)%string) status;
            kickoffs := kickoffs w |}.
Proof.
  revert w. induction status as [|[key value] status IH]; intros w.
  - unfold script_bind. cbn. rewrite app_nil_r. destruct w; reflexivity.
  - cbn [print_items map]. unfold script_bind at 1 2. unfold say at 1.
    specialize (IH {| clock := clock w; reads := reads w;
                      stdout := stdout w ++ [("  " ++ key ++ ": " ++ str_Any value)%string];
                      kickoffs := kickoffs w |}).
    unfold script_bind in IH. cbn [clock reads stdout kickoffs] in IH.
    rewrite <- app_assoc in IH. exact IH.
Qed.

(** Running the [print]s at the head of a script. *)
Ltac says := repeat (rewrite say_then; cbn [clock reads stdout kickoffs]).

Section TestSetupFacts.

Import test_setup.

Variable sys : Sys.
Variable environ : gmap string string.
Variable import_module : string -> import_outcome.
Variable import_main : option exn.
Variable client_error : ChatOpenAI -> option exn.

(** The loop tries every package: it returns the ones that are not
    importable, in order, after the ones already collected, and prints one
    line per package; it raises only what an import raises that is not an
    [ImportError]. *)
Lemma import_packages_result packages missing w :
  match import_packages import_module packages missing w with
  | (Return l, w') =>
      l = missing ++ not_importable import_module packages
      /\ Forall (fun p => forall e, import_module p.1 <> ImportRaises e) packages
      /\ length (stdout w') = (length (stdout w) + length packages)%nat
      /\ kickoffs w' = kickoffs w
  | (Raise e, w') =>
      Exists (fun p => import_module p.1 = ImportRaises e) packages
  end.
Proof.
  revert missing w. induction packages as [|[package name] packages IH]; intros missing w.
  - cbn. rewrite app_nil_r, Nat.add_0_r. repeat split. constructor.
  - cbn [import_packages]. unfold not_importable, import_fails. cbn [List.filter fst].
    destruct (import_module package) eqn:E.
    + says.
      match goal with |- context [import_packages _ _ _ ?w0] =>
        specialize (IH missing w0) end.
      destruct (import_packages import_module packages missing _) as [[l|e] w'].
      * destruct IH as (-> & Hall & Hlen & Hk). cbn [stdout kickoffs] in *.
        rewrite length_app in Hlen. cbn [length] in Hlen |- *.
        repeat split; [|lia|exact Hk].
        constructor; [cbn; rewrite E; discriminate | exact Hall].
      * right. exact IH.
    + says.
      match goal with |- context [import_packages _ _ _ ?w0] =>
        specialize (IH (missing ++ [package]) w0) end.
      destruct (import_packages import_module packages (missing ++ [package]) _)
        as [[l|e] w'].
      * destruct IH as (-> & Hall & Hlen & Hk). cbn [stdout kickoffs] in *.
        rewrite length_app in Hlen. cbn [length] in Hlen |- *.
        split; [rewrite <- app_assoc; reflexivity|].
        repeat split; [|lia|exact Hk].
        constructor; [cbn; rewrite E; discriminate | exact Hall].
      * right. exact IH.
    + left. exact E.
Qed.

(** What the loop returns does not depend on the world it runs in. *)
Lemma import_packages_any_world packages missing w w' :
  (import_packages import_module packages missing w).1
  = (import_packages import_module packages missing w').1.
Proof.
  revert missing w w'. induction packages as [|[package name] packages IH];
    intros missing w w'; [reflexivity|].
  cbn [import_packages]. destruct (import_module package); [| |reflexivity];
    rewrite !say_then; apply IH.
Qed.

(** The framework step of [test_environment], on its own. *)
Lemma framework_initialization_result w :
  match import_main, client_error (llm (__init__ environ)) with
  | Some e, _ | None, Some e =>
      framework_initialization environ import_main client_error w = (Raise e, w)
  | None, None =>
      framework_initialization environ import_main client_error w
      = (Return true,
         {| clock := clock w; reads := S (reads w);
            stdout := stdout w ++ ["✅ Framework initialized successfully";
                                   "   Agents: 0"; "   Tasks: 0"; "   Status: Active"];
            kickoffs := kickoffs w |})
  end.
Proof.
  unfold framework_initialization, new_CPEInnovationFramework.
  destruct import_main as [e|]; [reflexivity|].
  destruct (client_error (llm (__init__ environ))) as [e|]; [reflexivity|].
  erewrite (script_bind_Return (script_ret tt)) by reflexivity.
  erewrite (script_bind_Return (script_ret (__init__ environ))) by reflexivity.
  erewrite (script_bind_Return (call _ _)) by reflexivity.
  cbn [fst]. says.
  erewrite (script_bind_Return (getitem _ _)) by reflexivity. says.
  erewrite (script_bind_Return (getitem _ _)) by reflexivity. says.
  erewrite (script_bind_Return (getitem _ _)) by reflexivity. says.
  cbn [stdout clock reads kickoffs]. rewrite <- !app_assoc. reflexivity.
Qed.

Lemma test_environment_result w :
  (test_environment sys environ import_module import_main client_error w).1
  = checks_outcome sys environ import_module import_main client_error.
Proof.
  unfold test_environment, checks_outcome.
  destruct (version_info sys) as [[major minor] micro].
  says.
  destruct ((major <? 3)%nat || ((major =? 3)%nat && (minor <? 8)%nat)); [reflexivity|].
  says.
  assert (Hvenv : forall (k : Script bool) w0,
             ((if in_virtualenv sys
               then say "✅ Virtual environment activated"
               else say "⚠️  Virtual environment not detected (recommended but not required)")
              ~;; k) w0
             = k {| clock := clock w0; reads := reads w0;
                    stdout := stdout w0
                              ++ [if in_virtualenv sys
                                  then "✅ Virtual environment activated"
                                  else "⚠️  Virtual environment not detected (recommended but not required)"];
                    kickoffs := kickoffs w0 |}).
  { intros k w0. destruct (in_virtualenv sys); reflexivity. }
  rewrite Hvenv. cbn [clock reads stdout kickoffs].
  destruct (import_module "dotenv"); [| reflexivity | reflexivity].
  says. destruct (api_key_set environ); [|reflexivity].
  says. unfold script_bind at 1.
  match goal with |- context [import_packages _ _ _ ?w0] =>
    rewrite (import_packages_any_world required_packages [] empty_world w0);
    set (W := w0); clearbody W;
    destruct (import_packages import_module required_packages [] W) as [[l|e] w3]
  end; [|reflexivity].
  cbn [fst]. destruct l as [|p l]; [|reflexivity].
  says. unfold script_try_except_Exception.
  match goal with |- context [framework_initialization _ _ _ ?w0] =>
    pose proof (framework_initialization_result w0) as H
  end.
  destruct import_main as [e|]; [|destruct (client_error (llm (__init__ environ))) as [e|]];
    rewrite H; try destruct (isinstance_Exception e); reflexivity.
Qed.

Lemma import_packages_all_imported packages missing w :
  (import_packages import_module packages missing w).1 = Return missing
  <-> Forall (fun p => import_module p.1 = Imported) packages.
Proof.
  split.
  - intros H. pose proof (import_packages_result packages missing w) as Hr.
    destruct (import_packages import_module packages missing w) as [[l|e] w'];
      [|discriminate H].
    cbn in H. injection H as ->. destruct Hr as (Hl & Hall & _).
    rewrite <- (app_nil_r missing) in Hl at 1. apply app_inv_head in Hl.
    unfold not_importable, import_fails in Hl. clear -Hl Hall.
    induction packages as [|[p n] packages IH]; [constructor|].
    apply Forall_cons in Hall as [Hp Hall]. cbn [List.filter fst] in Hl.
    cbn [fst] in Hp.
    destruct (import_module p) eqn:E; [| discriminate Hl | contradiction (Hp e); reflexivity].
    constructor; [exact E | exact (IH Hl Hall)].
  - revert missing w. induction packages as [|[p n] packages IH]; intros missing w H;
      [reflexivity|].
    apply Forall_cons in H as [Hp H]. cbn [import_packages]. cbn [fst] in Hp.
    rewrite Hp, say_then. apply IH, H.
Qed.

Lemma too_old_iff (major minor : nat) :
  (major <? 3)%nat || ((major =? 3)%nat && (minor <? 8)%nat) = false
  <-> (3 < major \/ (major = 3 /\ 8 <= minor))%nat.
Proof.
  rewrite orb_false_iff, andb_false_iff, Nat.ltb_ge, Nat.eqb_neq, Nat.ltb_ge. lia.
Qed.

Lemma api_key_set_iff :
  api_key_set environ = true
  <-> exists key, getenv environ "OPENAI_API_KEY" = Some key
                  /\ key <> "" /\ key <> "your_openai_api_key_here".
Proof.
  unfold api_key_set. destruct (getenv environ "OPENAI_API_KEY") as [key|].
  - rewrite andb_true_iff, !negb_true_iff, !String.eqb_neq. split.
    + intros [H1 H2]. eauto.
    + intros (k & [= <-] & H1 & H2). auto.
  - split; [discriminate|]. intros (k & [=] & _).
Qed.

(** [test_environment] returns [True] exactly when every check passes. *)
Lemma test_environment_true_iff_checks w :
  (test_environment sys environ import_module import_main client_error w).1 = Return true
  <-> all_checks_pass sys environ import_module import_main client_error.
Proof.
  rewrite test_environment_result. unfold checks_outcome, all_checks_pass.
  rewrite <- api_key_set_iff,
    <- (import_packages_all_imported required_packages [] empty_world).
  destruct (version_info sys) as [[major minor] micro].
  rewrite <- too_old_iff.
  destruct ((major <? 3)%nat || ((major =? 3)%nat && (minor <? 8)%nat));
    [split; [discriminate | intros [[=] _]]|].
  destruct (import_module "dotenv");
    [| split; [discriminate | intros (_ & [=] & _)]
     | split; [discriminate | intros (_ & [=] & _)]].
  destruct (api_key_set environ);
    [| split; [discriminate | intros (_ & _ & [=] & _)]].
  destruct (import_packages import_module required_packages [] empty_world).1
    as [[|p l]|e];
    [| split; [discriminate | intros (_ & _ & _ & [=] & _)]
     | split; [discriminate | intros (_ & _ & _ & [=] & _)]].
  destruct import_main as [e|].
  { split; [destruct (isinstance_Exception e); discriminate
           | intros (_ & _ & _ & _ & [=] & _)]. }
  destruct (client_error (llm (__init__ environ))) as [e|].
  { split; [destruct (isinstance_Exception e); discriminate
           | intros (_ & _ & _ & _ & _ & [=])]. }
  split; [intros _; repeat split; reflexivity | reflexivity].
Qed.

Lemma main_result w :
  (main sys environ import_module import_main client_error w).1
  = match (test_environment sys environ import_module import_main client_error w).1 with
    | Return true => Return 0%Z
    | Return false => Return 1%Z
    | Raise e => Raise e
    end.
Proof.
  unfold main, script_bind.
  destruct (test_environment sys environ import_module import_main client_error w)
    as [[[|]|e] w']; reflexivity.
Qed.

(** X11.  [test_environment] returns [True], and [main] the exit status 0,
    exactly when every check passes; [main] returns 1 exactly when
    [test_environment] returns [False]. *)
Theorem test_setup_succeeds_iff w :
  ((test_environment sys environ import_module import_main client_error w).1 = Return true
   <-> all_checks_pass sys environ import_module import_main client_error)
  /\ ((main sys environ import_module import_main client_error w).1 = Return 0%Z
      <-> all_checks_pass sys environ import_module import_main client_error)
  /\ ((main sys environ import_module import_main client_error w).1 = Return 1%Z
      <-> (test_environment sys environ import_module import_main client_error w).1
          = Return false).
Proof.
  split; [apply test_environment_true_iff_checks|].
  rewrite main_result. split.
  - rewrite <- (test_environment_true_iff_checks w).
    destruct (test_environment sys environ import_module import_main client_error w).1
      as [[|]|e]; split; congruence.
  - destruct (test_environment sys environ import_module import_main client_error w).1
      as [[|]|e]; split; congruence.
Qed.

(** X12.  With a Python older than 3.8 [test_environment] prints four lines
    and returns [False] without looking at anything else. *)
Theorem old_python_stops_the_test w major minor micro :
  version_info sys = (major, minor, micro) ->
  (major < 3 \/ (major = 3 /\ minor < 8))%nat ->
  test_environment sys environ import_module import_main client_error w
  = (Return false,
     {| clock := clock w; reads := reads w;
        stdout := stdout w
                  ++ ["CPE Innovation Framework - Environment Test";
                      str_mul "=" 50;
                      ("Python Version: " ++ digits major ++ "." ++ digits minor
                       ++ "." ++ digits micro)%string;
                      "❌ Python 3.8+ required"];
        kickoffs := kickoffs w |}).
Proof.
  intros Hv Hold. unfold test_environment. rewrite Hv. says.
  assert (H : (major <? 3)%nat || ((major =? 3)%nat && (minor <? 8)%nat) = true).
  { rewrite orb_true_iff, andb_true_iff, !Nat.ltb_lt, Nat.eqb_eq. exact Hold. }
  rewrite H. says. unfold script_ret. cbn [stdout clock reads kickoffs].
  rewrite <- !app_assoc. reflexivity.
Qed.

(** X13.  When no import raises anything but [ImportError] and whatever the
    import of [main] or the client raises derives from [Exception],
    [test_environment] returns a boolean and [main] returns 0 or 1: nothing
    is raised. *)
Theorem test_setup_never_raises w :
  (forall package e, import_module package <> ImportRaises e) ->
  (forall e, import_main = Some e -> isinstance_Exception e = true) ->
  (forall e, client_error (llm (__init__ environ)) = Some e ->
             isinstance_Exception e = true) ->
  (exists b, (test_environment sys environ import_module import_main client_error w).1
             = Return b)
  /\ ((main sys environ import_module import_main client_error w).1 = Return 0%Z
      \/ (main sys environ import_module import_main client_error w).1 = Return 1%Z).
Proof.
  intros Himp Hmain Hclient.
  assert (H : exists b,
             (test_environment sys environ import_module import_main client_error w).1
             = Return b).
  { rewrite test_environment_result. unfold checks_outcome.
    destruct (version_info sys) as [[major minor] micro].
    destruct ((major <? 3)%nat || ((major =? 3)%nat && (minor <? 8)%nat)); [eauto|].
    destruct (import_module "dotenv") eqn:Ed; [|eauto|contradiction (Himp _ _ Ed)].
    destruct (api_key_set environ); [|eauto].
    pose proof (import_packages_result required_packages [] empty_world) as Hr.
    destruct (import_packages import_module required_packages [] empty_world)
      as [[[|p l]|e] w']; cbn [fst].
    - destruct import_main as [e|]; [rewrite (Hmain e eq_refl); eauto|].
      destruct (client_error (llm (__init__ environ))) as [e|];
        [rewrite (Hclient e eq_refl); eauto | eauto].
    - eauto.
    - apply Exists_exists in Hr as (p & _ & Hp). contradiction (Himp _ _ Hp). }
  split; [exact H|]. rewrite main_result. destruct H as [[|] ->]; auto.
Qed.

(** X14.  When the checks before the packages pass and some package is not
    importable, every package is still tried: [test_environment] prints the
    seven lines of the earlier checks and one line per package, then the
    names of all the packages that are not importable, in the order of the
    list and separated by [", "], then the [pip] hint, and returns [False]. *)
Theorem missing_packages_are_all_reported w major minor micro :
  version_info sys = (major, minor, micro) ->
  (3 < major \/ (major = 3 /\ 8 <= minor))%nat ->
  import_module "dotenv" = Imported ->
  api_key_set environ = true ->
  Forall (fun p => forall e, import_module p.1 <> ImportRaises e) required_packages ->
  not_importable import_module required_packages <> [] ->
  exists w' printed,
    test_environment sys environ import_module import_main client_error w
    = (Return false, w')
    /\ stdout w'
       = printed
         ++ [(nl ++ "Missing packages: "
              ++ join ", " (not_importable import_module required_packages))%string;
             "Run: pip install -r requirements.txt"]
    /\ length printed = (length (stdout w) + 13)%nat.
Proof.
  intros Hv Hok Hdotenv Hkey Hall Hmissing.
  unfold test_environment. rewrite Hv. says.
  apply too_old_iff in Hok. rewrite Hok. says.
  assert (Hvenv : forall (k : Script bool) w0,
             ((if in_virtualenv sys
               then say "✅ Virtual environment activated"
               else say "⚠️  Virtual environment not detected (recommended but not required)")
              ~;; k) w0
             = k {| clock := clock w0; reads := reads w0;
                    stdout := stdout w0
                              ++ [if in_virtualenv sys
                                  then "✅ Virtual environment activated"
                                  else "⚠️  Virtual environment not detected (recommended but not required)"];
                    kickoffs := kickoffs w0 |}).
  { intros k w0. destruct (in_virtualenv sys); reflexivity. }
  rewrite Hvenv. cbn [clock reads stdout kickoffs]. rewrite Hdotenv. says. rewrite Hkey. says. unfold script_bind at 1.
  match goal with |- context [import_packages _ _ _ ?w0] =>
    set (W := w0);
    assert (H7 : length (stdout W) = (length (stdout w) + 7)%nat)
      by (subst W; cbn [stdout]; rewrite !length_app; cbn [length]; lia);
    clearbody W;
    pose proof (import_packages_result required_packages [] W) as Hr;
    destruct (import_packages import_module required_packages [] W) as [[l|e] w3]
  end.
  - destruct Hr as (Hl & _ & Hlen & _). cbn [app] in Hl. subst l.
    remember (not_importable import_module required_packages) as missing eqn:E.
    destruct missing as [|p l]; [contradiction Hmissing; reflexivity|].
    says. unfold script_ret. eexists _, (stdout w3).
    split; [reflexivity|]. cbn [stdout]. split; [rewrite <- app_assoc; reflexivity|].
    rewrite Hlen, H7. cbn [length required_packages]. lia.
  - exfalso. apply Exists_exists in Hr as (p & Hin & Hp).
    rewrite Forall_forall in Hall. exact (Hall p Hin e Hp).
Qed.

End TestSetupFacts.

Section BasicUsageFacts.

Import basic_usage.

Context {RunResult : Type}.
Variable kickoff : Crew -> dict Any -> World -> result RunResult * World.
Variable bool_ : RunResult -> bool.
Variable environ : gmap string string.
Variable client_error : ChatOpenAI -> option exn.

(** A run on a given payload by an instance that has a crew, in full. *)
Lemma run_analysis_given_payload d self w c :
  crew self = Some c ->
  run_analysis kickoff (Some d) self w
  = let w1 := {| clock := clock w; reads := S (reads w);
                 stdout := stdout w
                           ++ [("Starting CPE Innovation Framework Analysis at "
                                ++ datetime_str (clock w (reads w)))%string;
                               "Initializing specialized agents for comprehensive ecosystem analysis..."];
                 kickoffs := kickoffs w |} in
    let '(r, w2) := kickoff c d w1 in
    match r with
    | Return v =>
        (Return (Some v), self,
         {| clock := clock w2; reads := reads w2;
            stdout := stdout w2
                      ++ [(nl ++ "Analysis completed successfully!")%string;
                          "Generated comprehensive reports for network optimization, predictive maintenance, service deployment, knowledge curation, and ecosystem coordination."];
            kickoffs := kickoffs w ++ [(c, d)] |})
    | Raise e =>
        if isinstance_Exception e
        then (Return None, self,
              {| clock := clock w2; reads := reads w2;
                 stdout := stdout w2 ++ [("Error during analysis: " ++ exn_str e)%string];
                 kickoffs := kickoffs w ++ [(c, d)] |})
        else (Raise e, self,
              {| clock := clock w2; reads := reads w2; stdout := stdout w2;
                 kickoffs := kickoffs w ++ [(c, d)] |})
    end.
Proof.
  intros Hc. unfold run_analysis.
  rewrite (bind_Return self_crew _ self w (crew self) self w) by reflexivity.
  rewrite Hc.
  rewrite (bind_Return (ret tt) _ self w tt self w) by reflexivity.
  unfold bind, ret, datetime_now, print, try_except_Exception, self_crew_kickoff.
  cbn [clock reads stdout kickoffs]. rewrite Hc. rewrite <- !app_assoc. cbn [app].
  destruct (kickoff c d _) as [[v|e] w2]; [|destruct (isinstance_Exception e)];
    cbn [clock reads stdout kickoffs]; rewrite <- ?app_assoc; reflexivity.
Qed.

(** [main] with a client that accepts its arguments, in full: everything
    depends on what the facility does when it is called. *)
Lemma main_with_client w :
  client_error (llm (__init__ environ)) = None ->
  main kickoff bool_ environ client_error w
  = let c := crew_of (llm (__init__ environ)) in
    let '(r, w2) := kickoff c sample_data (world_at_kickoff w) in
    match r with
    | Return v =>
        if bool_ v
        then (Return tt,
              {| clock := clock w2; reads := S (reads w2);
                 stdout :=
                   stdout w2
                   ++ [(nl ++ "Analysis completed successfully!")%string;
                       "Generated comprehensive reports for network optimization, predictive maintenance, service deployment, knowledge curation, and ecosystem coordination.";
                       (nl ++ str_mul "=" 50)%string;
                       "ANALYSIS COMPLETED SUCCESSFULLY!";
                       str_mul "=" 50;
                       (nl ++ "Final System Status:")%string;
                       "  framework_status: Active";
                       "  agents_count: 5";
                       "  tasks_count: 5";
                       ("  last_analysis: " ++ isoformat (clock w2 (reads w2)))%string;
                       "  crew_initialized: True";
                       (nl ++ "All 5 agents have been created and executed their tasks!")%string;
                       "Your CPE Innovation Framework is fully operational!"];
                 kickoffs := kickoffs w ++ [(c, sample_data)] |})
        else (Return tt,
              {| clock := clock w2; reads := reads w2;
                 stdout :=
                   stdout w2
                   ++ [(nl ++ "Analysis completed successfully!")%string;
                       "Generated comprehensive reports for network optimization, predictive maintenance, service deployment, knowledge curation, and ecosystem coordination.";
                       "Analysis completed but returned no result"];
                 kickoffs := kickoffs w ++ [(c, sample_data)] |})
    | Raise e =>
        if isinstance_Exception e
        then (Return tt,
              {| clock := clock w2; reads := reads w2;
                 stdout :=
                   stdout w2
                   ++ [("Error during analysis: " ++ exn_str e)%string;
                       "Analysis completed but returned no result"];
                 kickoffs := kickoffs w ++ [(c, sample_data)] |})
        else (Raise e,
              {| clock := clock w2; reads := reads w2; stdout := stdout w2;
                 kickoffs := kickoffs w ++ [(c, sample_data)] |})
    end.
Proof.
  intros Hclient. unfold main. says.
  unfold script_try_except_Exception, new_CPEInnovationFramework. rewrite Hclient.
  erewrite (script_bind_Return (script_ret (__init__ environ))) by reflexivity.
  says.
  erewrite (script_bind_Return (call get_system_status _)) by reflexivity.
  cbv beta iota. says.
  rewrite print_items_then.
  says. unfold script_bind at 1. unfold call at 1.
  rewrite (run_analysis_uncomposed kickoff (Some sample_data) (__init__ environ) _
             (composed (llm (__init__ environ))) (crew_of (llm (__init__ environ))))
    by reflexivity.
  rewrite (run_analysis_given_payload sample_data (composed (llm (__init__ environ))) _
             (crew_of (llm (__init__ environ)))) by reflexivity.
  cbv zeta.
  match goal with
  | |- context [kickoff _ _ ?w1] =>
      replace w1 with (world_at_kickoff w)
        by (unfold world_at_kickoff; cbn [clock reads stdout kickoffs];
            rewrite <- !app_assoc; reflexivity)
  end.
  destruct (kickoff (crew_of (llm (__init__ environ))) sample_data (world_at_kickoff w))
    as [[v|e] w2].
  - cbn [fst snd]. cbv beta iota. destruct (bool_ v).
    + says.
      erewrite (script_bind_Return (call get_system_status _)) by reflexivity.
      cbv beta iota. says.
      rewrite print_items_then.
      says. unfold say. cbn [clock reads stdout kickoffs].
      rewrite <- !app_assoc. reflexivity.
    + unfold say. cbn [clock reads stdout kickoffs]. rewrite <- !app_assoc. reflexivity.
  - destruct (isinstance_Exception e) eqn:He.
    + cbv beta iota. unfold say. cbn [clock reads stdout kickoffs].
      rewrite <- !app_assoc. reflexivity.
    + rewrite He. reflexivity.
Qed.

(** X15.  [basic_usage.main] when the facility raises: an exception that
    derives from [Exception] is reported by [run_analysis] alone, and [main]
    then prints ["Analysis completed but returned no result"] and returns;
    its own handler does not run.  Another exception leaves [main]. *)
Theorem basic_usage_swallows_facility_failure w e w2 :
  client_error (llm (__init__ environ)) = None ->
  kickoff (crew_of (llm (__init__ environ))) sample_data (world_at_kickoff w)
  = (Raise e, w2) ->
  main kickoff bool_ environ client_error w
  = if isinstance_Exception e
    then (Return tt,
          {| clock := clock w2; reads := reads w2;
             stdout := stdout w2
                       ++ [("Error during analysis: " ++ exn_str e)%string;
                           "Analysis completed but returned no result"];
             kickoffs := kickoffs w
                         ++ [(crew_of (llm (__init__ environ)), sample_data)] |})
    else (Raise e,
          {| clock := clock w2; reads := reads w2; stdout := stdout w2;
             kickoffs := kickoffs w
                         ++ [(crew_of (llm (__init__ environ)), sample_data)] |}).
Proof.
  intros Hclient Hk. rewrite main_with_client by exact Hclient.
  cbv zeta. rewrite Hk. reflexivity.
Qed.

(** X16.  [basic_usage.main] when the facility returns a result that is
    true: after the closing lines of the run it prints the banner and the
    final status, which shows 5 agents, 5 tasks and a crew, with the clock
    read at that moment. *)
Theorem basic_usage_reports_final_status w v w2 :
  client_error (llm (__init__ environ)) = None ->
  kickoff (crew_of (llm (__init__ environ))) sample_data (world_at_kickoff w)
  = (Return v, w2) ->
  bool_ v = true ->
  main kickoff bool_ environ client_error w
  = (Return tt,
     {| clock := clock w2; reads := S (reads w2);
        stdout :=
          stdout w2
          ++ [(nl ++ "Analysis completed successfully!")%string;
              "Generated comprehensive reports for network optimization, predictive maintenance, service deployment, knowledge curation, and ecosystem coordination.";
              (nl ++ str_mul "=" 50)%string;
              "ANALYSIS COMPLETED SUCCESSFULLY!";
              str_mul "=" 50;
              (nl ++ "Final System Status:")%string;
              "  framework_status: Active";
              "  agents_count: 5";
              "  tasks_count: 5";
              ("  last_analysis: " ++ isoformat (clock w2 (reads w2)))%string;
              "  crew_initialized: True";
              (nl ++ "All 5 agents have been created and executed their tasks!")%string;
              "Your CPE Innovation Framework is fully operational!"];
        kickoffs := kickoffs w ++ [(crew_of (llm (__init__ environ)), sample_data)] |}).
Proof.
  intros Hclient Hk Hv. rewrite main_with_client by exact Hclient.
  cbv zeta. rewrite Hk, Hv. reflexivity.
Qed.

(** X17.  [basic_usage.main] when the facility returns a result that is
    false (an empty string, say): the run has printed that it completed, and
    [main] prints ["Analysis completed but returned no result"], as it does
    for a failed run. *)
Theorem basic_usage_takes_false_result_for_none w v w2 :
  client_error (llm (__init__ environ)) = None ->
  kickoff (crew_of (llm (__init__ environ))) sample_data (world_at_kickoff w)
  = (Return v, w2) ->
  bool_ v = false ->
  main kickoff bool_ environ client_error w
  = (Return tt,
     {| clock := clock w2; reads := reads w2;
        stdout :=
          stdout w2
          ++ [(nl ++ "Analysis completed successfully!")%string;
              "Generated comprehensive reports for network optimization, predictive maintenance, service deployment, knowledge curation, and ecosystem coordination.";
              "Analysis completed but returned no result"];
        kickoffs := kickoffs w ++ [(crew_of (llm (__init__ environ)), sample_data)] |}).
Proof.
  intros Hclient Hk Hv. rewrite main_with_client by exact Hclient.
  cbv zeta. rewrite Hk, Hv. reflexivity.
Qed.

(** X18.  [basic_usage.main] when the client rejects its arguments: an
    exception that derives from [Exception] is printed after ["Error: "],
    followed by the hint, and [main] returns; the facility is never called.
    Another exception leaves [main]. *)
Theorem basic_usage_reports_client_error w e :
  client_error (llm (__init__ environ)) = Some e ->
  main kickoff bool_ environ client_error w
  = if isinstance_Exception e
    then (Return tt,
          {| clock := clock w; reads := reads w;
             stdout := stdout w
                       ++ ["CPE Innovation Framework - Full Analysis Test";
                           str_mul "=" 50;
                           ("Error: " ++ exn_str e)%string;
                           "Check your OpenAI API key and network connection"];
             kickoffs := kickoffs w |})
    else (Raise e,
          {| clock := clock w; reads := reads w;
             stdout := stdout w
                       ++ ["CPE Innovation Framework - Full Analysis Test";
                           str_mul "=" 50];
             kickoffs := kickoffs w |}).
Proof.
  intros Hclient. unfold main. says.
  unfold script_try_except_Exception, new_CPEInnovationFramework. rewrite Hclient.
  unfold script_bind at 1, script_raise.
  destruct (isinstance_Exception e).
  - says. unfold say. cbn [clock reads stdout kickoffs].
    rewrite <- !app_assoc. reflexivity.
  - rewrite <- !app_assoc. reflexivity.
Qed.

End BasicUsageFacts.

(** ** The further theorems at work on the examples *)

Lemma agents_share_client_witness :
  let self := after (Examples.stub_returning "V") call_setup_crew (__init__ ∅) empty_world in
  model (llm self) = "gpt-4"
  /\ temperature (llm self) = 3 # 10
  /\ Forall (fun a => agent_llm a = llm self) (values (agents self))
  /\ Forall (fun t => agent_llm (agent t) = llm self) (values (tasks self))
  /\ (forall c, crew self = Some c ->
        Forall (fun a => agent_llm a = llm self) (crew_agents c)
        /\ Forall (fun t => agent_llm (agent t) = llm self) (crew_tasks c)).
Proof.
  apply (agents_share_client (Examples.stub_returning "V")).
  apply reachable_call, reachable_init.
Defined.


Lemma status_counts_invariant_witness :
  let self := after (Examples.stub_returning "V") call_setup_agents (__init__ ∅) empty_world in
  exists status w',
    get_system_status self Examples.ticking = (Return status, self, w')
    /\ dict_get "framework_status" status = Some (PyStr "Active")
    /\ ((agents_count status, tasks_count status, crew_initialized status)
        = (Some (PyInt 0), Some (PyInt 0), Some (PyBool false))
        \/ (agents_count status, tasks_count status, crew_initialized status)
           = (Some (PyInt 5), Some (PyInt 0), Some (PyBool false))
        \/ (agents_count status, tasks_count status, crew_initialized status)
           = (Some (PyInt 5), Some (PyInt 5), Some (PyBool false))
        \/ (agents_count status, tasks_count status, crew_initialized status)
           = (Some (PyInt 5), Some (PyInt 5), Some (PyBool true))).
Proof.
  apply (status_counts_invariant (Examples.stub_returning "V")).
  apply reachable_call, reachable_init.
Defined.

Lemma run_analysis_calls_facility_once_witness :
  let stub := Examples.stub_raising (Exn KeyboardInterrupt "") in
  exists p,
    kickoffs (run_analysis stub None (__init__ ∅) Examples.ticking).2
    = kickoffs Examples.ticking ++ [(crew_of (llm (__init__ ∅)), p)]
    /\ (forall d, None = Some d -> p = d)
    /\ (run_analysis stub None (__init__ ∅) Examples.ticking).1.2
       = composed (llm (__init__ ∅))
    /\ (crew (__init__ ∅) <> None ->
        (run_analysis stub None (__init__ ∅) Examples.ticking).1.2 = __init__ ∅).
Proof.
  apply (run_analysis_calls_facility_once (Examples.stub_raising (Exn KeyboardInterrupt ""))).
  apply reachable_init.
Defined.

Lemma run_analysis_output_witness :
  let stub := Examples.stub_raising (Exn (OtherException "RuntimeError") "boom") in
  exists p w1,
    stdout w1
    = stdout Examples.ticking
      ++ [("Starting CPE Innovation Framework Analysis at "
           ++ datetime_str (clock Examples.ticking (reads Examples.ticking)))%string;
          "Initializing specialized agents for comprehensive ecosystem analysis..."]
    /\ forall r w2, stub (crew_of (llm (__init__ ∅))) p w1 = (r, w2) ->
       stdout (run_analysis stub (Some []) (__init__ ∅) Examples.ticking).2
       = stdout w2
         ++ match r with
            | Return _ =>
                [(nl ++ "Analysis completed successfully!")%string;
                 "Generated comprehensive reports for network optimization, predictive maintenance, service deployment, knowledge curation, and ecosystem coordination."]
            | Raise e =>
                if isinstance_Exception e
                then [("Error during analysis: " ++ exn_str e)%string]
                else []
            end.
Proof.
  apply (run_analysis_output
           (Examples.stub_raising (Exn (OtherException "RuntimeError") "boom"))
           (Some []) (__init__ ∅) Examples.ticking).
  apply reachable_init.
Defined.

Lemma Settings_and_client_share_credential_witness :
  exists cls,
    Settings_class Q Examples.int_decimal Examples.float_decimal Examples.lower
      MoreExamples.with_key = Return cls
    /\ OPENAI_API_KEY cls = openai_api_key (llm (__init__ MoreExamples.with_key))
    /\ (validate cls = Return true
        <-> exists key, openai_api_key (llm (__init__ MoreExamples.with_key)) = Some key
                        /\ key <> "")
    /\ model (llm (__init__ MoreExamples.with_key)) = "gpt-4".
Proof.
  eexists. split; [vm_compute; reflexivity|].
  apply (Settings_and_client_share_credential Q Examples.int_decimal
           Examples.float_decimal Examples.lower MoreExamples.with_key).
  vm_compute. reflexivity.
Defined.

Lemma old_python_stops_the_test_witness :
  test_setup.test_environment MoreExamples.python_3_7 MoreExamples.with_key
    MoreExamples.all_importable None MoreExamples.accepting Examples.ticking
  = (Return false,
     {| clock := clock Examples.ticking; reads := reads Examples.ticking;
        stdout := stdout Examples.ticking
                  ++ ["CPE Innovation Framework - Environment Test";
                      str_mul "=" 50;
                      ("Python Version: " ++ digits 3 ++ "." ++ digits 7
                       ++ "." ++ digits 9)%string;
                      "❌ Python 3.8+ required"];
        kickoffs := kickoffs Examples.ticking |}).
Proof.
  apply (old_python_stops_the_test MoreExamples.python_3_7 MoreExamples.with_key
           MoreExamples.all_importable None MoreExamples.accepting Examples.ticking 3 7 9).
  - reflexivity.
  - right. lia.
Defined.

Lemma missing_packages_are_all_reported_witness :
  exists w' printed,
    test_setup.test_environment MoreExamples.python_3_11 MoreExamples.with_key
      MoreExamples.without_pandas_numpy None MoreExamples.accepting Examples.ticking
    = (Return false, w')
    /\ stdout w'
       = printed
         ++ [(nl ++ "Missing packages: "
              ++ join ", " (test_setup.not_importable MoreExamples.without_pandas_numpy
                              test_setup.required_packages))%string;
             "Run: pip install -r requirements.txt"]
    /\ length printed = (length (stdout Examples.ticking) + 13)%nat.
Proof.
  apply (missing_packages_are_all_reported MoreExamples.python_3_11 MoreExamples.with_key
           MoreExamples.without_pandas_numpy None MoreExamples.accepting
           Examples.ticking 3 11 4).
  - reflexivity.
  - right. lia.
  - reflexivity.
  - vm_compute. reflexivity.
  - repeat apply List.Forall_cons; try apply List.Forall_nil; intros e; discriminate.
  - vm_compute. discriminate.
Defined.

Lemma test_setup_never_raises_witness :
  (exists b,
     (test_setup.test_environment MoreExamples.python_3_11 MoreExamples.with_key
        MoreExamples.all_importable None
        (MoreExamples.rejecting (Exn (OtherException "OpenAIError") "invalid key"))
        Examples.ticking).1
     = Return b)
  /\ ((test_setup.main MoreExamples.python_3_11 MoreExamples.with_key
         MoreExamples.all_importable None
         (MoreExamples.rejecting (Exn (OtherException "OpenAIError") "invalid key"))
         Examples.ticking).1 = Return 0%Z
      \/ (test_setup.main MoreExamples.python_3_11 MoreExamples.with_key
            MoreExamples.all_importable None
            (MoreExamples.rejecting (Exn (OtherException "OpenAIError") "invalid key"))
            Examples.ticking).1 = Return 1%Z).
Proof.
  apply (test_setup_never_raises MoreExamples.python_3_11 MoreExamples.with_key
           MoreExamples.all_importable None
           (MoreExamples.rejecting (Exn (OtherException "OpenAIError") "invalid key"))
           Examples.ticking).
  - intros package e. discriminate.
  - intros e. discriminate.
  - intros e [= <-]. reflexivity.
Defined.

Lemma basic_usage_swallows_facility_failure_witness :
  let e := Exn (OtherException "RuntimeError") "boom" in
  let w2 := basic_usage.world_at_kickoff Examples.ticking in
  basic_usage.main (Examples.stub_raising e) MoreExamples.nonempty ∅
    MoreExamples.accepting Examples.ticking
  = if isinstance_Exception e
    then (Return tt,
          {| clock := clock w2; reads := reads w2;
             stdout := stdout w2
                       ++ [("Error during analysis: " ++ exn_str e)%string;
                           "Analysis completed but returned no result"];
             kickoffs := kickoffs Examples.ticking
                         ++ [(crew_of (llm (__init__ ∅)), basic_usage.sample_data)] |})
    else (Raise e,
          {| clock := clock w2; reads := reads w2; stdout := stdout w2;
             kickoffs := kickoffs Examples.ticking
                         ++ [(crew_of (llm (__init__ ∅)), basic_usage.sample_data)] |}).
Proof.
  intros e w2.
  apply (basic_usage_swallows_facility_failure (Examples.stub_raising e)
           MoreExamples.nonempty ∅ MoreExamples.accepting Examples.ticking e w2);
    reflexivity.
Defined.

Lemma basic_usage_reports_final_status_witness :
  let w2 := basic_usage.world_at_kickoff Examples.ticking in
  basic_usage.main (Examples.stub_returning "V") MoreExamples.nonempty ∅
    MoreExamples.accepting Examples.ticking
  = (Return tt,
     {| clock := clock w2; reads := S (reads w2);
        stdout :=
          stdout w2
          ++ [(nl ++ "Analysis completed successfully!")%string;
              "Generated comprehensive reports for network optimization, predictive maintenance, service deployment, knowledge curation, and ecosystem coordination.";
              (nl ++ str_mul "=" 50)%string;
              "ANALYSIS COMPLETED SUCCESSFULLY!";
              str_mul "=" 50;
              (nl ++ "Final System Status:")%string;
              "  framework_status: Active";
              "  agents_count: 5";
              "  tasks_count: 5";
              ("  last_analysis: " ++ isoformat (clock w2 (reads w2)))%string;
              "  crew_initialized: True";
              (nl ++ "All 5 agents have been created and executed their tasks!")%string;
              "Your CPE Innovation Framework is fully operational!"];
        kickoffs := kickoffs Examples.ticking
                    ++ [(crew_of (llm (__init__ ∅)), basic_usage.sample_data)] |}).
Proof.
  intros w2.
  apply (basic_usage_reports_final_status (Examples.stub_returning "V")
           MoreExamples.nonempty ∅ MoreExamples.accepting Examples.ticking "V" w2);
    reflexivity.
Defined.

Lemma basic_usage_takes_false_result_for_none_witness :
  let w2 := basic_usage.world_at_kickoff Examples.ticking in
  basic_usage.main (Examples.stub_returning "") MoreExamples.nonempty ∅
    MoreExamples.accepting Examples.ticking
  = (Return tt,
     {| clock := clock w2; reads := reads w2;
        stdout :=
          stdout w2
          ++ [(nl ++ "Analysis completed successfully!")%string;
              "Generated comprehensive reports for network optimization, predictive maintenance, service deployment, knowledge curation, and ecosystem coordination.";
              "Analysis completed but returned no result"];
        kickoffs := kickoffs Examples.ticking
                    ++ [(crew_of (llm (__init__ ∅)), basic_usage.sample_data)] |}).
Proof.
  intros w2.
  apply (basic_usage_takes_false_result_for_none (Examples.stub_returning "")
           MoreExamples.nonempty ∅ MoreExamples.accepting Examples.ticking "" w2);
    reflexivity.
Defined.

Lemma basic_usage_reports_client_error_witness :
  let e := Exn (OtherException "OpenAIError") "invalid key" in
  basic_usage.main (Examples.stub_returning "V") MoreExamples.nonempty ∅
    (MoreExamples.rejecting e) Examples.ticking
  = if isinstance_Exception e
    then (Return tt,
          {| clock := clock Examples.ticking; reads := reads Examples.ticking;
             stdout := stdout Examples.ticking
                       ++ ["CPE Innovation Framework - Full Analysis Test";
                           str_mul "=" 50;
                           ("Error: " ++ exn_str e)%string;
                           "Check your OpenAI API key and network connection"];
             kickoffs := kickoffs Examples.ticking |})
    else (Raise e,
          {| clock := clock Examples.ticking; reads := reads Examples.ticking;
             stdout := stdout Examples.ticking
                       ++ ["CPE Innovation Framework - Full Analysis Test";
                           str_mul "=" 50];
             kickoffs := kickoffs Examples.ticking |}).
Proof.
  intros e.
  apply (basic_usage_reports_client_error (Examples.stub_returning "V")
           MoreExamples.nonempty ∅ (MoreExamples.rejecting e) Examples.ticking e).
  reflexivity.
Defined.
